(** * LocalLibrary controllers: a shallow embedding of the request handlers

    The catalog controllers ([controllers/authorController.js] and the book
    controller) are embedded as functions from a document store and a request
    to a response and a new store.

    Conventions of the embedding:
    - a JavaScript string is a [string]; a character stands for one code unit
      below 256, so single-byte white space is what [\s] matches;
    - an identifier ([_id], [req.params.id], a reference) is a string; the
      handlers are first given for strings that cast to an ObjectId, and the
      rejection of a string that does not cast is added to them afterwards;
    - a collection is the list of its documents in natural order; the ODM
      calls used by the controllers are total functions on it;
    - [Promise.all] settles its reads in an order chosen by the event loop,
      given to a handler as a list of choices. *)

From Stdlib Require Import List String Ascii Bool Arith Lia ZArith.
From Stdlib Require Import Permutation Sorted.
Import ListNotations.
Open Scope string_scope.
Open Scope list_scope.
Open Scope nat_scope.

(** ** validator.js: the string functions behind the validation chains *)

Module Validator.

Definition code (c : ascii) : nat := nat_of_ascii c.

(** [\s] on code units below 256: tab, line feed, vertical tab, form feed,
    carriage return, space and no-break space. *)
Definition is_space (c : ascii) : bool :=
  let n := code c in
  ((9 <=? n) && (n <=? 13)) || (n =? 32) || (n =? 160).

(** [ltrim]: [str.replace(/^\s+/g, '')]. *)
Fixpoint ltrim (s : string) : string :=
  match s with
  | EmptyString => EmptyString
  | String c r => if is_space c then ltrim r else s
  end.

(** [rtrim]: drops the white space at the end of the string. *)
Fixpoint rtrim (s : string) : string :=
  match s with
  | EmptyString => EmptyString
  | String c r =>
      match rtrim r with
      | EmptyString => if is_space c then EmptyString else String c EmptyString
      | r' => String c r'
      end
  end.

(** [trim(str)] is [rtrim(ltrim(str))]. *)
Definition trim (s : string) : string := rtrim (ltrim s).

(** [isLength(str, {min})], for strings without surrogate pairs. *)
Definition isLength (min : nat) (s : string) : bool := min <=? String.length s.

(** [escape]: the replacements of the ampersand, the double and the
    single quote, the angle brackets, the slash, the backslash and the back
    quote by their HTML entities.  The ampersand is replaced first and no
    replacement text holds a character replaced later, so the chain of
    [replace] calls is a map over the characters. *)
Definition escape_char (c : ascii) : string :=
  let n := code c in
  if n =? 38 then "&amp;"
  else if n =? 34 then "&quot;"
  else if n =? 39 then "&#x27;"
  else if n =? 60 then "&lt;"
  else if n =? 62 then "&gt;"
  else if n =? 47 then "&#x2F;"
  else if n =? 92 then "&#x5C;"
  else if n =? 96 then "&#96;"
  else String c EmptyString.

Fixpoint escape (s : string) : string :=
  match s with
  | EmptyString => EmptyString
  | String c r => (escape_char c ++ escape r)%string
  end.

(** One character of [[0-9A-Z]] under the [i] flag. *)
Definition is_alnum (c : ascii) : bool :=
  let n := code c in
  ((48 <=? n) && (n <=? 57)) || ((65 <=? n) && (n <=? 90))
  || ((97 <=? n) && (n <=? 122)).

Fixpoint all_alnum (s : string) : bool :=
  match s with
  | EmptyString => true
  | String c r => is_alnum c && all_alnum r
  end.

(** [isAlphanumeric(str)] with the default locale: [/^[0-9A-Z]+$/i]. *)
Definition isAlphanumeric (s : string) : bool :=
  match s with
  | EmptyString => false
  | _ => all_alnum s
  end.

End Validator.

(** ** Documents *)

Definition ObjectId := string.

(** A [Date] is its time value, in milliseconds since the epoch. *)
Definition Date := Z.

(** A date path of a document: not set, [null], or a date. *)
Inductive DateField :=
| Unset
| Null
| OnDate (d : Date).

Module Author.
Record t := {
  _id : ObjectId;
  first_name : string;
  family_name : string;
  date_of_birth : DateField;
  date_of_death : DateField
}.
End Author.

Module Genre.
Record t := {
  _id : ObjectId;
  name : string
}.
End Genre.

(** A book; [A] and [G] are what the [author] path and the elements of the
    [genre] path hold: identifiers, or documents once populated. *)
Module Book.
Record doc (A G : Type) := {
  _id : ObjectId;
  title : string;
  author : A;
  summary : string;
  isbn : string;
  genre : list G
}.
Arguments _id {A G}.
Arguments title {A G}.
Arguments author {A G}.
Arguments summary {A G}.
Arguments isbn {A G}.
Arguments genre {A G}.
Definition t := doc ObjectId ObjectId.
End Book.

(** The projection ['title summary'] of a book. *)
Module BookTitleSummary.
Record t := {
  _id : ObjectId;
  title : string;
  summary : string
}.
End BookTitleSummary.

(** The projection ['title author'] of a book. *)
Module BookTitleAuthor.
Record doc (A : Type) := {
  _id : ObjectId;
  title : string;
  author : A
}.
Arguments _id {A}.
Arguments title {A}.
Arguments author {A}.
End BookTitleAuthor.

Module BookInstance.
Record t := {
  _id : ObjectId;
  book : ObjectId;
  status : string
}.
End BookInstance.

(** ** The document store and the ODM calls *)

Record Store := {
  authors : list Author.t;
  books : list Book.t;
  bookinstances : list BookInstance.t;
  genres : list Genre.t
}.

Module Model.
Section Collection.
Context {A : Type} (id_of : A -> ObjectId).

  (** [find(filter)]: the documents that match, in natural order. *)
Definition find (matches : A -> bool) (c : list A) : list A :=
    filter matches c.

  (** [countDocuments(filter)]. *)
Definition countDocuments (matches : A -> bool) (c : list A) : nat :=
    List.length (filter matches c).

  (** [findById(id)]: the document with that [_id], or [null]. *)
Fixpoint findById (id : ObjectId) (c : list A) : option A :=
    match c with
    | [] => None
    | d :: r => if (id_of d =? id)%string then Some d else findById id r
    end.

  (** [findByIdAndDelete(id)]: removes the document with that [_id], if
      there is one. *)
Fixpoint findByIdAndDelete (id : ObjectId) (c : list A) : list A :=
    match c with
    | [] => []
    | d :: r =>
        if (id_of d =? id)%string then r else d :: findByIdAndDelete id r
    end.

  (** [findByIdAndUpdate(id, update, {})]: applies the update to the
      document with that [_id] and resolves to the document as it was
      before, or to [null] when there is none. *)
Fixpoint findByIdAndUpdate (id : ObjectId) (update : A -> A) (c : list A)
    : option A * list A :=
    match c with
    | [] => (None, [])
    | d :: r =>
        if (id_of d =? id)%string then (Some d, update d :: r)
        else let (found, r') := findByIdAndUpdate id update r in
             (found, d :: r')
    end.

  (** [doc.save()] of a new document. *)
Definition save (d : A) (c : list A) : list A := c ++ [d].

  (** [sort({key: 1})]: ascending on a string path. *)
Fixpoint insert_by (key : A -> string) (d : A) (l : list A) : list A :=
    match l with
    | [] => [d]
    | x :: r =>
        if (key d <=? key x)%string then d :: l else x :: insert_by key d r
    end.

Fixpoint sort (key : A -> string) (l : list A) : list A :=
    match l with
    | [] => []
    | d :: r => insert_by key d (sort key r)
    end.

(** The order of [sort({key: 1})]: strings compare by their code units. *)
Definition ascending (key : A -> string) (x y : A) : Prop :=
  (key x <=? key y)%string = true.
End Collection.
End Model.

Definition set_authors (st : Store) (c : list Author.t) : Store :=
  {| authors := c; books := books st;
     bookinstances := bookinstances st; genres := genres st |}.

Definition set_books (st : Store) (c : list Book.t) : Store :=
  {| authors := authors st; books := c;
     bookinstances := bookinstances st; genres := genres st |}.

(** [populate('author')]: the referenced author, [null] when it is gone. *)
Definition populate_author {G : Type} (st : Store) (b : Book.doc ObjectId G)
  : Book.doc (option Author.t) G :=
  {| Book._id := Book._id b; Book.title := Book.title b;
     Book.author := Model.findById Author._id (Book.author b) (authors st);
     Book.summary := Book.summary b; Book.isbn := Book.isbn b;
     Book.genre := Book.genre b |}.

(** [populate('genre')]: the referenced genres that exist. *)
Definition populate_genre {A : Type} (st : Store) (b : Book.doc A ObjectId)
  : Book.doc A Genre.t :=
  {| Book._id := Book._id b; Book.title := Book.title b;
     Book.author := Book.author b;
     Book.summary := Book.summary b; Book.isbn := Book.isbn b;
     Book.genre :=
       flat_map (fun g => match Model.findById Genre._id g (genres st) with
                          | Some d => [d]
                          | None => []
                          end) (Book.genre b) |}.

Definition title_summary (b : Book.t) : BookTitleSummary.t :=
  {| BookTitleSummary._id := Book._id b;
     BookTitleSummary.title := Book.title b;
     BookTitleSummary.summary := Book.summary b |}.

Definition title_author (b : Book.t) : BookTitleAuthor.doc ObjectId :=
  {| BookTitleAuthor._id := Book._id b;
     BookTitleAuthor.title := Book.title b;
     BookTitleAuthor.author := Book.author b |}.

Definition populate_listed (st : Store) (b : BookTitleAuthor.doc ObjectId)
  : BookTitleAuthor.doc (option Author.t) :=
  {| BookTitleAuthor._id := BookTitleAuthor._id b;
     BookTitleAuthor.title := BookTitleAuthor.title b;
     BookTitleAuthor.author :=
       Model.findById Author._id (BookTitleAuthor.author b) (authors st) |}.

(** ** Reads and [Promise.all] *)

(** What a query of the controllers resolves to. *)
Inductive Result :=
| RCount (n : nat)
| RAuthor (a : option Author.t)
| RAuthors (l : list Author.t)
| RGenres (l : list Genre.t)
| RBook (b : option Book.t)
| RBookWithAuthor (b : option (Book.doc (option Author.t) ObjectId))
| RBookPopulated (b : option (Book.doc (option Author.t) Genre.t))
| RBookSummaries (l : list BookTitleSummary.t)
| RInstances (l : list BookInstance.t).

Definition Read := Store -> Result.

(** How a handler waits for several reads. *)
Definition Gather := list Read -> Store -> list Result.

(** Reads awaited one after the other, in listed order. *)
Definition await_each : Gather :=
  fun reads st => map (fun r => r st) reads.

(** Takes the [k]-th element out of a list. *)
Fixpoint pick {A : Type} (k : nat) (l : list A) : option (A * list A) :=
  match l with
  | [] => None
  | x :: r =>
      match k with
      | 0 => Some (x, r)
      | S k' =>
          match pick k' r with
          | Some (y, r') => Some (y, x :: r')
          | None => None
          end
      end
  end.

(** A read answered from the store, with its position in the array. *)
Definition answer (st : Store) (p : nat * Read) : nat * Result :=
  (fst p, snd p st).

(** The pending reads settle one at a time; each choice names which of the
    pending ones settles next.  A read that settles is answered from the
    store and its value kept with the position it had in the array.  [n] is
    the number of reads still pending. *)
Fixpoint settle (choices : list nat) (n : nat) (pending : list (nat * Read))
  (st : Store) : list (nat * Result) :=
  match n with
  | 0 => []
  | S n' =>
      match pick (hd 0 choices mod List.length pending) pending with
      | Some (p, rest) => answer st p :: settle (tl choices) n' rest st
      | None => []
      end
  end.

Fixpoint slot (i : nat) (settled : list (nat * Result)) : option Result :=
  match settled with
  | [] => None
  | (j, v) :: r => if i =? j then Some v else slot i r
  end.

(** [Promise.all(reads)]: the values in the order of the array, whatever the
    order in which the reads settled. *)
Definition promise_all (choices : list nat) : Gather :=
  fun reads st =>
    let n := List.length reads in
    let settled := settle choices n (combine (seq 0 n) reads) st in
    flat_map (fun i => match slot i settled with
                       | Some v => [v]
                       | None => []
                       end) (seq 0 n).

(** ** Requests and responses *)

(** A value of a parsed request body. *)
#[local] Unset Elimination Schemes.
Inductive JsVal :=
| JUndefined
| JNull
| JBool (b : bool)
| JNumber (z : Z)
| JString (s : string)
| JArray (l : list JsVal)
| JObject (fields : list (string * JsVal)).
#[local] Set Elimination Schemes.

Definition isArray (v : JsVal) : bool :=
  match v with
  | JArray _ => true
  | _ => false
  end.

Definition is_undefined (v : JsVal) : bool :=
  match v with
  | JUndefined => true
  | _ => false
  end.

(** The text fields of a form: absent, or a string. *)
Module AuthorForm.
Record t := {
  first_name : option string;
  family_name : option string;
  date_of_birth : option string;
  date_of_death : option string
}.
End AuthorForm.

Module BookForm.
Record t := {
  title : option string;
  author : option string;
  summary : option string;
  isbn : option string;
  genre : JsVal
}.
End BookForm.

Record Error := {
  name : string;
  message : string;
  status : option nat
}.

Record ValidationError := {
  path : string;
  msg : string
}.

(** Whether the list holds an error of the field. *)
Definition has_error (field : string) (errors : list ValidationError) : bool :=
  existsb (fun e => (path e =? field)%string) errors.

(** A genre as the book form shows it. *)
Record GenreOption := {
  option_genre : Genre.t;
  checked : bool
}.

(** The locals of each view. *)
Inductive Locals :=
| index_locals (title : string)
    (book_count book_instance_count book_instance_available_count
       author_count genre_count : nat)
| author_list_locals (title : string) (author_list : list Author.t)
| author_detail_locals (title : string) (author : Author.t)
    (author_books : list BookTitleSummary.t)
| author_form_locals (title : string) (author : option Author.t)
    (errors : option (list ValidationError))
| author_delete_locals (title : string) (author : option Author.t)
    (author_books : list BookTitleSummary.t)
| book_list_locals (title : string)
    (book_list : list (BookTitleAuthor.doc (option Author.t)))
| book_detail_locals (title : string)
    (book : Book.doc (option Author.t) Genre.t)
    (book_instances : list BookInstance.t)
| book_form_locals (title : string) (authors : list Author.t)
    (genres : list GenreOption) (book : option Book.t)
    (errors : option (list ValidationError))
| book_update_form_locals (title : string) (authors : list Author.t)
    (genres : list GenreOption)
    (book : Book.doc (option Author.t) ObjectId)
| book_delete_locals (title : string) (book : option Book.t)
    (book_instances : list BookInstance.t).

Inductive Response :=
| render (view : string) (locals : Locals)
| redirect (url : string)
| next (err : Error).

(** [new Error(message)] with [err.status = 404]. *)
Definition not_found (m : string) : Error :=
  {| name := "Error"; message := m; status := Some 404 |}.

(** What reading [url] of [null] throws. *)
Definition null_url_error : Error :=
  {| name := "TypeError";
     message := "Cannot read properties of null (reading 'url')";
     status := None |}.

(** What destructuring throws when the array of results has another shape. *)
Definition shape_error : Error :=
  {| name := "TypeError"; message := "unexpected result"; status := None |}.

(** ** The controllers *)

Section Controllers.

(** [isISO8601] and [toDate] of validator.js. *)
Variable isISO8601 : string -> bool.
Variable toDate : string -> option Date.

(** Modelled from the spec: the canonical URL string of a record, a
    computed display field of the Author and Book models. *)
Variable author_url : Author.t -> string.
Variable book_url : Book.t -> string.

(** [body('genre.*').escape()]: the sanitizer on every element of the
    genre array. *)
Variable escape_elements : JsVal -> JsVal.

(** The cast of the genre array to the references a Book keeps. *)
Variable cast_genre : JsVal -> list ObjectId.

(** *** Validation chains *)

(** The string a standard validator or sanitizer sees. *)
Definition toString (v : option string) : string :=
  match v with
  | Some s => s
  | None => EmptyString
  end.

Definition field_error (field m : string) : ValidationError :=
  {| path := field; msg := m |}.

(** [body(field).trim().isLength({ min: 1 }).escape().withMessage(m1)
    .isAlphanumeric().withMessage(m2)]: the value left in the body and the
    errors of the field.  [withMessage] names the message of the validator
    before it. *)
Definition name_chain (field m1 m2 : string) (v : option string)
  : string * list ValidationError :=
  let trimmed := Validator.trim (toString v) in
  let e1 := if Validator.isLength 1 trimmed then []
            else [field_error field m1] in
  let escaped := Validator.escape trimmed in
  let e2 := if Validator.isAlphanumeric escaped then []
            else [field_error field m2] in
  (escaped, e1 ++ e2).

(** [body(field, m).trim().isLength({ min: 1 }).escape()]. *)
Definition text_chain (field m : string) (v : option string)
  : string * list ValidationError :=
  let trimmed := Validator.trim (toString v) in
  let e := if Validator.isLength 1 trimmed then []
           else [field_error field m] in
  (Validator.escape trimmed, e).

(** What a date chain leaves in the body. *)
Inductive DateInput :=
| NotSent
| EmptyText
| Converted (d : option Date).

(** The value of a field that is sent and is not falsy. *)
Definition truthy_date (v : option string) : option string :=
  match v with
  | Some s => if (s =? EmptyString)%string then None else Some s
  | None => None
  end.

(** [body(field, m).optional({ values: 'falsy' }).isISO8601().toDate()]:
    a falsy value stops the chain and stays as it is. *)
Definition date_chain (field m : string) (v : option string)
  : DateInput * list ValidationError :=
  match v with
  | None => (NotSent, [])
  | Some s =>
      if (s =? EmptyString)%string then (EmptyText, [])
      else (Converted (toDate s),
            if isISO8601 s then [] else [field_error field m])
  end.

(** The cast of a body value to a date path. *)
Definition cast_date (v : DateInput) : DateField :=
  match v with
  | NotSent => Unset
  | EmptyText => Null
  | Converted (Some d) => OnDate d
  | Converted None => Null
  end.

(** [req.body] after the chains of the author forms. *)
Record AuthorBody := {
  body_first_name : string;
  body_family_name : string;
  body_date_of_birth : DateInput;
  body_date_of_death : DateInput
}.

(** The chains of the author forms: the body they leave and
    [validationResult(req).array()]. *)
Definition author_chains (body : AuthorForm.t)
  : AuthorBody * list ValidationError :=
  let (first_name, e1) :=
    name_chain "first_name" "First name must be specified."
      "First name has non-alphanumeric characters."
      (AuthorForm.first_name body) in
  let (family_name, e2) :=
    name_chain "family_name" "Family name must be specified."
      "Family name has non-alphanumeric characters."
      (AuthorForm.family_name body) in
  let (date_of_birth, e3) :=
    date_chain "date_of_birth" "Invalid date of birth"
      (AuthorForm.date_of_birth body) in
  let (date_of_death, e4) :=
    date_chain "date_of_death" "Invalid date of death"
      (AuthorForm.date_of_death body) in
  ({| body_first_name := first_name;
      body_family_name := family_name;
      body_date_of_birth := date_of_birth;
      body_date_of_death := date_of_death |},
   e1 ++ e2 ++ e3 ++ e4).

(** [new Author({ first_name: req.body.first_name, ... })] with the given
    [_id]. *)
Definition new_author (id : ObjectId) (body : AuthorBody) : Author.t :=
  {| Author._id := id;
     Author.first_name := body_first_name body;
     Author.family_name := body_family_name body;
     Author.date_of_birth := cast_date (body_date_of_birth body);
     Author.date_of_death := cast_date (body_date_of_death body) |}.

(** The first middleware of the book forms: convert the genre to an
    array. *)
Definition convert_genre (genre : JsVal) : JsVal :=
  if negb (isArray genre)
  then (if is_undefined genre then JArray [] else JArray [genre])
  else genre.

(** [req.body] after the chains of the book forms. *)
Record BookBody := {
  body_title : string;
  body_author : string;
  body_summary : string;
  body_isbn : string;
  body_genre : JsVal
}.

(** The middlewares of the book forms: the body they leave and
    [validationResult(req).array()]. *)
Definition book_chains (body : BookForm.t)
  : BookBody * list ValidationError :=
  let genre := convert_genre (BookForm.genre body) in
  let (title, e1) :=
    text_chain "title" "Title must not be empty." (BookForm.title body) in
  let (author, e2) :=
    text_chain "author" "Author must not be empty."
      (BookForm.author body) in
  let (summary, e3) :=
    text_chain "summary" "Summary must not be empty."
      (BookForm.summary body) in
  let (isbn, e4) :=
    text_chain "isbn" "ISBN must not be empty" (BookForm.isbn body) in
  ({| body_title := title;
      body_author := author;
      body_summary := summary;
      body_isbn := isbn;
      body_genre := escape_elements genre |},
   e1 ++ e2 ++ e3 ++ e4).

(** [new Book({ title: req.body.title, ..., genre })] with the given
    [_id]. *)
Definition new_book (id : ObjectId) (body : BookBody) (genre : JsVal)
  : Book.t :=
  {| Book._id := id;
     Book.title := body_title body;
     Book.author := body_author body;
     Book.summary := body_summary body;
     Book.isbn := body_isbn body;
     Book.genre := cast_genre genre |}.

Definition isEmpty (errors : list ValidationError) : bool :=
  match errors with
  | [] => true
  | _ => false
  end.

(** *** Updates *)

Definition update_date (new old : DateField) : DateField :=
  match new with
  | Unset => old
  | _ => new
  end.

(** The paths that the document given to [findByIdAndUpdate] sets. *)
Definition author_update (new old : Author.t) : Author.t :=
  {| Author._id := Author._id new;
     Author.first_name := Author.first_name new;
     Author.family_name := Author.family_name new;
     Author.date_of_birth :=
       update_date (Author.date_of_birth new) (Author.date_of_birth old);
     Author.date_of_death :=
       update_date (Author.date_of_death new) (Author.date_of_death old) |}.

Definition book_update (new old : Book.t) : Book.t := new.

(** *** Queries *)

Definition everything {A : Type} (d : A) : bool := true.

Definition by_author (id : ObjectId) (b : Book.t) : bool :=
  (Book.author b =? id)%string.

Definition by_book (id : ObjectId) (i : BookInstance.t) : bool :=
  (BookInstance.book i =? id)%string.

Definition available (i : BookInstance.t) : bool :=
  (BookInstance.status i =? "Available")%string.

(** [Author.findById(id).exec()]. *)
Definition author_by_id (id : ObjectId) (st : Store) : option Author.t :=
  Model.findById Author._id id (authors st).

(** [Book.find({ author: id }, 'title summary').exec()]. *)
Definition books_by_author (id : ObjectId) (st : Store)
  : list BookTitleSummary.t :=
  map title_summary (Model.find (by_author id) (books st)).

(** [Book.findById(id).exec()]. *)
Definition book_by_id (id : ObjectId) (st : Store) : option Book.t :=
  Model.findById Book._id id (books st).

(** [Book.findById(id).populate('author').exec()]. *)
Definition book_with_author (id : ObjectId) (st : Store)
  : option (Book.doc (option Author.t) ObjectId) :=
  option_map (populate_author st) (Model.findById Book._id id (books st)).

(** [Book.findById(id).populate('author').populate('genre').exec()]. *)
Definition book_populated (id : ObjectId) (st : Store)
  : option (Book.doc (option Author.t) Genre.t) :=
  option_map (fun b => populate_genre st (populate_author st b))
    (Model.findById Book._id id (books st)).

(** [BookInstance.find({ book: id }).exec()]. *)
Definition instances_by_book (id : ObjectId) (st : Store)
  : list BookInstance.t :=
  Model.find (by_book id) (bookinstances st).

(** [Author.find().sort({ family_name: 1 }).exec()]. *)
Definition authors_by_family_name (st : Store) : list Author.t :=
  Model.sort Author.family_name (Model.find everything (authors st)).

(** [Genre.find().sort({ name: 1 }).exec()]. *)
Definition genres_by_name (st : Store) : list Genre.t :=
  Model.sort Genre.name (Model.find everything (genres st)).

(** [Book.find({}, 'title author').sort({ title: 1 }).populate('author')
    .exec()]. *)
Definition books_by_title (st : Store)
  : list (BookTitleAuthor.doc (option Author.t)) :=
  map (populate_listed st)
    (Model.sort BookTitleAuthor.title
       (map title_author (Model.find everything (books st)))).

(** A query as an element of an array of reads. *)
Definition read {A : Type} (wrap : A -> Result) (query : Store -> A)
  : Read :=
  fun st => wrap (query st).

(** Mark selected genres as checked. *)
Definition mark_checked {A : Type} (book : Book.doc A ObjectId)
  (allGenres : list Genre.t) : list GenreOption :=
  map (fun genre =>
         {| option_genre := genre;
            checked :=
              existsb (fun g => (g =? Genre._id genre)%string)
                (Book.genre book) |}) allGenres.

Definition unchecked (allGenres : list Genre.t) : list GenreOption :=
  map (fun genre => {| option_genre := genre; checked := false |})
    allGenres.

(** *** Home page and author handlers

    A handler takes the store and what it reads of the request, and gives
    the response and the store it leaves.  [gather] is how it waits for an
    array of reads: [promise_all choices] in the controllers. *)

Definition Handler := Store -> Response * Store.

(** Display the home page. *)
Definition index (gather : Gather) : Handler :=
  fun st =>
    match gather
            [ read RCount
                (fun st => Model.countDocuments everything (books st));
              read RCount
                (fun st => Model.countDocuments everything (bookinstances st));
              read RCount
                (fun st => Model.countDocuments available (bookinstances st));
              read RCount
                (fun st => Model.countDocuments everything (authors st));
              read RCount
                (fun st => Model.countDocuments everything (genres st))
            ] st with
    | [RCount numBooks; RCount numBookInstances;
       RCount numAvailableBookInstances; RCount numAuthors; RCount numGenres] =>
        (render "index"
           (index_locals "Local Library Home" numBooks numBookInstances
              numAvailableBookInstances numAuthors numGenres), st)
    | _ => (next shape_error, st)
    end.

(** Display list of all Authors. *)
Definition author_list : Handler :=
  fun st =>
    let allAuthors := authors_by_family_name st in
    (render "author_list" (author_list_locals "Author List" allAuthors), st).

(** Display detail page for a specific Author. *)
Definition author_detail (gather : Gather) (id : ObjectId) : Handler :=
  fun st =>
    match gather [read RAuthor (author_by_id id);
                  read RBookSummaries (books_by_author id)] st with
    | [RAuthor author; RBookSummaries allBooksByAuthor] =>
        match author with
        | None => (next (not_found "Author not found"), st)
        | Some author =>
            (render "author_detail"
               (author_detail_locals "Author Detail" author allBooksByAuthor),
             st)
        end
    | _ => (next shape_error, st)
    end.

(** Display Author create form on GET. *)
Definition author_create_get : Handler :=
  fun st =>
    (render "author_form" (author_form_locals "Create Author" None None), st).

(** Handle Author create on POST.  [oid] is the [_id] that [new Author]
    gives the document. *)
Definition author_create_post (oid : ObjectId) (body : AuthorForm.t)
  : Handler :=
  fun st =>
    let (body, errors) := author_chains body in
    let author := new_author oid body in
    if negb (isEmpty errors) then
      (render "author_form"
         (author_form_locals "Create Author" (Some author) (Some errors)), st)
    else
      let st' := set_authors st (Model.save author (authors st)) in
      (redirect (author_url author), st').

(** Display Author delete form on GET. *)
Definition author_delete_get (gather : Gather) (id : ObjectId) : Handler :=
  fun st =>
    match gather [read RAuthor (author_by_id id);
                  read RBookSummaries (books_by_author id)] st with
    | [RAuthor author; RBookSummaries allBooksByAuthor] =>
        match author with
        | None => (redirect "/catalog/authors", st)
        | Some _ =>
            (render "author_delete"
               (author_delete_locals "Delete Author" author allBooksByAuthor),
             st)
        end
    | _ => (next shape_error, st)
    end.

(** Handle Author delete on POST: [id] is [req.params.id], [authorid] is
    [req.body.authorid]. *)
Definition author_delete_post (gather : Gather) (id authorid : ObjectId)
  : Handler :=
  fun st =>
    match gather [read RAuthor (author_by_id id);
                  read RBookSummaries (books_by_author id)] st with
    | [RAuthor author; RBookSummaries allBooksByAuthor] =>
        if 0 <? List.length allBooksByAuthor then
          (render "author_delete"
             (author_delete_locals "Delete Author" author allBooksByAuthor),
           st)
        else
          let st' :=
            set_authors st
              (Model.findByIdAndDelete Author._id authorid (authors st)) in
          (redirect "/catalog/authors", st')
    | _ => (next shape_error, st)
    end.

(** Display Author update form on GET. *)
Definition author_update_get (id : ObjectId) : Handler :=
  fun st =>
    match author_by_id id st with
    | None => (next (not_found "Author not found"), st)
    | Some author =>
        (render "author_form"
           (author_form_locals "Update Author" (Some author) None), st)
    end.

(** Handle Author update on POST. *)
Definition author_update_post (id : ObjectId) (body : AuthorForm.t)
  : Handler :=
  fun st =>
    let (body, errors) := author_chains body in
    let author := new_author id body in
    if negb (isEmpty errors) then
      (render "author_form"
         (author_form_locals "Update Author" (Some author) (Some errors)), st)
    else
      let (updatedAuthor, c) :=
        Model.findByIdAndUpdate Author._id id (author_update author)
          (authors st) in
      match updatedAuthor with
      | Some updatedAuthor =>
          (redirect (author_url updatedAuthor), set_authors st c)
      | None => (next null_url_error, set_authors st c)
      end.

(** *** Book handlers *)

(** Display list of all books. *)
Definition book_list : Handler :=
  fun st =>
    let allBooks := books_by_title st in
    (render "book_list" (book_list_locals "Book List" allBooks), st).

(** Display detail page for a specific book. *)
Definition book_detail (gather : Gather) (id : ObjectId) : Handler :=
  fun st =>
    match gather
            [read RBookPopulated (book_populated id);
             read RInstances (instances_by_book id)] st with
    | [RBookPopulated book; RInstances bookInstances] =>
        match book with
        | None => (next (not_found "Book not found"), st)
        | Some book =>
            (render "book_detail"
               (book_detail_locals (Book.title book) book bookInstances), st)
        end
    | _ => (next shape_error, st)
    end.

(** Display book create form on GET. *)
Definition book_create_get (gather : Gather) : Handler :=
  fun st =>
    match gather [read RAuthors authors_by_family_name;
                    read RGenres genres_by_name] st with
    | [RAuthors allAuthors; RGenres allGenres] =>
        (render "book_form"
           (book_form_locals "Create Book" allAuthors (unchecked allGenres)
              None None), st)
    | _ => (next shape_error, st)
    end.

(** Handle book create on POST. *)
Definition book_create_post (gather : Gather) (oid : ObjectId)
  (body : BookForm.t) : Handler :=
  fun st =>
    let (body, errors) := book_chains body in
    let book := new_book oid body (body_genre body) in
    if negb (isEmpty errors) then
      match gather [read RAuthors authors_by_family_name;
                    read RGenres genres_by_name] st with
      | [RAuthors allAuthors; RGenres allGenres] =>
          (render "book_form"
             (book_form_locals "Create Book" allAuthors
                (mark_checked book allGenres) (Some book) (Some errors)), st)
      | _ => (next shape_error, st)
      end
    else
      let st' := set_books st (Model.save book (books st)) in
      (redirect (book_url book), st').

(** Display book delete form on GET. *)
Definition book_delete_get (gather : Gather) (id : ObjectId) : Handler :=
  fun st =>
    match gather [read RBook (book_by_id id);
                  read RInstances (instances_by_book id)] st with
    | [RBook book; RInstances allBookInstances] =>
        match book with
        | None => (redirect "/catalog/books", st)
        | Some _ =>
            (render "book_delete"
               (book_delete_locals "Delete Book" book allBookInstances), st)
        end
    | _ => (next shape_error, st)
    end.

(** Handle book delete on POST: [id] is [req.params.id], [bookid] is
    [req.body.bookid]. *)
Definition book_delete_post (gather : Gather) (id bookid : ObjectId)
  : Handler :=
  fun st =>
    match gather [read RBook (book_by_id id);
                  read RInstances (instances_by_book id)] st with
    | [RBook book; RInstances allBookInstances] =>
        if 0 <? List.length allBookInstances then
          (render "book_delete"
             (book_delete_locals "Delete Book" book allBookInstances), st)
        else
          let st' :=
            set_books st (Model.findByIdAndDelete Book._id bookid (books st)) in
          (redirect "/catalog/books", st')
    | _ => (next shape_error, st)
    end.

(** Display book update form on GET. *)
Definition book_update_get (gather : Gather) (id : ObjectId) : Handler :=
  fun st =>
    match gather
            [read RBookWithAuthor (book_with_author id);
             read RAuthors authors_by_family_name;
             read RGenres genres_by_name] st with
    | [RBookWithAuthor book; RAuthors allAuthors; RGenres allGenres] =>
        match book with
        | None => (next (not_found "Book not found"), st)
        | Some book =>
            (render "book_form"
               (book_update_form_locals "Update Book" allAuthors
                  (mark_checked book allGenres) book), st)
        end
    | _ => (next shape_error, st)
    end.

(** Handle book update on POST. *)
Definition book_update_post (gather : Gather) (id : ObjectId)
  (body : BookForm.t) : Handler :=
  fun st =>
    let (body, errors) := book_chains body in
    let book :=
      new_book id body
        (if is_undefined (body_genre body) then JArray []
         else body_genre body) in
    if negb (isEmpty errors) then
      match gather [read RAuthors authors_by_family_name;
                    read RGenres genres_by_name] st with
      | [RAuthors allAuthors; RGenres allGenres] =>
          (render "book_form"
             (book_form_locals "Update Book" allAuthors
                (mark_checked book allGenres) (Some book) (Some errors)), st)
      | _ => (next shape_error, st)
      end
    else
      let (updatedBook, c) :=
        Model.findByIdAndUpdate Book._id id (book_update book) (books st) in
      match updatedBook with
      | Some updatedBook => (redirect (book_url updatedBook), set_books st c)
      | None => (next null_url_error, set_books st c)
      end.

End Controllers.

(** ** Identifiers that do not cast

    A query casts the identifiers of its filter to ObjectIds before it reads
    the store, and a save casts the reference paths of the document.  When a
    string does not cast, the promise rejects and the [catch] of the handler
    forwards the error to [next].  The handlers above are what the code does
    on strings that cast; the handlers below add the rejection. *)

(** What a query rejects with. *)
Definition cast_error : Error :=
  {| name := "CastError";
     message := "Cast to ObjectId failed";
     status := None |}.

(** What [save()] rejects with. *)
Definition validation_error : Error :=
  {| name := "ValidationError";
     message := "Book validation failed";
     status := None |}.

Section Casts.

(** Whether the ODM casts the string to an ObjectId. *)
Variable casts : string -> bool.

(** Whether the ODM casts the genre array to references. *)
Variable genre_casts : JsVal -> bool.

(** A handler whose first reads are queries on [id]. *)
Definition querying (id : ObjectId) (handler : Handler) : Handler :=
  fun st => if casts id then handler st else (next cast_error, st).

Definition author_detail_cast (gather : Gather) (id : ObjectId) : Handler :=
  querying id (author_detail gather id).

Definition author_update_get_cast (id : ObjectId) : Handler :=
  querying id (author_update_get id).

Definition author_delete_get_cast (gather : Gather) (id : ObjectId)
  : Handler :=
  querying id (author_delete_get gather id).

Definition book_detail_cast (gather : Gather) (id : ObjectId) : Handler :=
  querying id (book_detail gather id).

Definition book_update_get_cast (gather : Gather) (id : ObjectId) : Handler :=
  querying id (book_update_get gather id).

Definition book_delete_get_cast (gather : Gather) (id : ObjectId) : Handler :=
  querying id (book_delete_get gather id).

(** The delete POSTs query on [req.params.id] first and, when nothing
    depends on it, call [findByIdAndDelete] on the posted identifier. *)
Definition author_delete_post_cast (gather : Gather) (id authorid : ObjectId)
  : Handler :=
  querying id
    (fun st =>
       if (0 <? List.length (books_by_author id st)) || casts authorid
       then author_delete_post gather id authorid st
       else (next cast_error, st)).

Definition book_delete_post_cast (gather : Gather) (id bookid : ObjectId)
  : Handler :=
  querying id
    (fun st =>
       if (0 <? List.length (instances_by_book id st)) || casts bookid
       then book_delete_post gather id bookid st
       else (next cast_error, st)).

(** [book.save()] rejects a book whose author or genre does not cast to
    references; it is reached when the chains report no error. *)
Definition book_create_post_cast (book_url : Book.t -> string)
  (escape_elements : JsVal -> JsVal) (cast_genre : JsVal -> list ObjectId)
  (gather : Gather) (oid : ObjectId) (body : BookForm.t) : Handler :=
  fun st =>
    let (clean, errors) := book_chains escape_elements body in
    if isEmpty errors
       && negb (casts (body_author clean) && genre_casts (body_genre clean))
    then (next validation_error, st)
    else book_create_post book_url escape_elements cast_genre gather oid body
           st.

End Casts.

(** ** A sample catalog

    Instances of what the controllers take from the library and the models,
    and a small store, for the examples below. *)

Definition is_digit (c : ascii) : bool :=
  (48 <=? Validator.code c) && (Validator.code c <=? 57).

(** A stand-in for [isISO8601] that accepts the shape [YYYY-MM-DD]. *)
Definition sample_isISO8601 (s : string) : bool :=
  match list_ascii_of_string s with
  | [y1; y2; y3; y4; "-"%char; m1; m2; "-"%char; d1; d2] =>
      forallb is_digit [y1; y2; y3; y4; m1; m2; d1; d2]
  | _ => false
  end.

Definition sample_toDate (s : string) : option Date :=
  if sample_isISO8601 s then Some 0%Z else None.

Definition sample_author_url (a : Author.t) : string :=
  ("/catalog/author/" ++ Author._id a)%string.

Definition sample_book_url (b : Book.t) : string :=
  ("/catalog/book/" ++ Book._id b)%string.

Definition sample_escape_elements (v : JsVal) : JsVal :=
  match v with
  | JArray l =>
      JArray (map (fun e => match e with
                            | JString s => JString (Validator.escape s)
                            | _ => e
                            end) l)
  | _ => v
  end.

Definition sample_cast_genre (v : JsVal) : list ObjectId :=
  match v with
  | JArray l =>
      flat_map (fun e => match e with
                         | JString s => [s]
                         | _ => []
                         end) l
  | _ => []
  end.

Definition asimov : Author.t :=
  {| Author._id := "a1"; Author.first_name := "Isaac";
     Author.family_name := "Asimov";
     Author.date_of_birth := OnDate 0%Z; Author.date_of_death := Null |}.

Definition bova : Author.t :=
  {| Author._id := "a2"; Author.first_name := "Ben";
     Author.family_name := "Bova";
     Author.date_of_birth := Unset; Author.date_of_death := Unset |}.

Definition foundation : Book.t :=
  {| Book._id := "b1"; Book.title := "Foundation"; Book.author := "a1";
     Book.summary := "Psychohistory"; Book.isbn := "9780553293357";
     Book.genre := ["g1"] |}.

Definition mars : Book.t :=
  {| Book._id := "b2"; Book.title := "Mars"; Book.author := "a2";
     Book.summary := "Expedition"; Book.isbn := "9780553562415";
     Book.genre := [] |}.

Definition foundation_copy : BookInstance.t :=
  {| BookInstance._id := "i1"; BookInstance.book := "b1";
     BookInstance.status := "Available" |}.

Definition science_fiction : Genre.t :=
  {| Genre._id := "g1"; Genre.name := "Science Fiction" |}.

Definition library : Store :=
  {| authors := [bova; asimov];
     books := [mars; foundation];
     bookinstances := [foundation_copy];
     genres := [science_fiction] |}.

Definition valid_author_form : AuthorForm.t :=
  {| AuthorForm.first_name := Some " Arthur ";
     AuthorForm.family_name := Some "Clarke";
     AuthorForm.date_of_birth := Some "1917-12-16";
     AuthorForm.date_of_death := Some EmptyString |}.

Definition invalid_author_form : AuthorForm.t :=
  {| AuthorForm.first_name := Some "Arthur C.";
     AuthorForm.family_name := None;
     AuthorForm.date_of_birth := Some "December 1917";
     AuthorForm.date_of_death := None |}.

Definition valid_book_form : BookForm.t :=
  {| BookForm.title := Some "Rendezvous with Rama";
     BookForm.author := Some "a1";
     BookForm.summary := Some "A cylinder";
     BookForm.isbn := Some "9780553287899";
     BookForm.genre := JString "g1" |}.

Definition invalid_book_form : BookForm.t :=
  {| BookForm.title := Some "  ";
     BookForm.author := Some "a1";
     BookForm.summary := None;
     BookForm.isbn := Some "9780553287899";
     BookForm.genre := JUndefined |}.

Definition stray_book_form : BookForm.t :=
  {| BookForm.title := Some "Rama";
     BookForm.author := Some "nobody";
     BookForm.summary := Some "A cylinder";
     BookForm.isbn := Some "1";
     BookForm.genre := JUndefined |}.

Definition is_hex (c : ascii) : bool :=
  let n := Validator.code c in
  ((48 <=? n) && (n <=? 57)) || ((65 <=? n) && (n <=? 70))
  || ((97 <=? n) && (n <=? 102)).

(** A stand-in for the cast of the ODM: hexadecimal strings, of the length
    of an ObjectId or of the identifiers of the sample catalog. *)
Definition sample_casts (s : string) : bool :=
  forallb is_hex (list_ascii_of_string s)
  && ((String.length s =? 24) || (String.length s =? 2)).

Definition sample_genre_casts (v : JsVal) : bool :=
  match v with
  | JArray l =>
      forallb (fun e => match e with
                        | JString s => true
                        | _ => false
                        end) l
  | _ => false
  end.

(** ** Invariants of a store *)

(** No two documents of a collection share an identifier. *)
Definition unique_ids {A : Type} (id_of : A -> ObjectId) (c : list A) : Prop :=
  NoDup (map id_of c).

(** No document of the collection has the identifier. *)
Definition unused {A : Type} (id_of : A -> ObjectId) (id : ObjectId)
  (c : list A) : Prop :=
  forall d, In d c -> id_of d <> id.

(** Every book names a stored author. *)
Definition books_have_authors (st : Store) : Prop :=
  forall b, In b (books st) ->
            exists a, In a (authors st) /\ Author._id a = Book.author b.

(** Every copy names a stored book. *)
Definition instances_have_books (st : Store) : Prop :=
  forall i, In i (bookinstances st) ->
            exists b, In b (books st) /\ Book._id b = BookInstance.book i.

(** ** Shapes of sanitized text *)

(** The characters that [escape] replaces, the ampersand apart. *)
Definition is_markup (c : ascii) : bool :=
  let n := Validator.code c in
  (n =? 34) || (n =? 39) || (n =? 60) || (n =? 62) || (n =? 47) || (n =? 92)
  || (n =? 96).

Fixpoint has_markup (s : string) : bool :=
  match s with
  | EmptyString => false
  | String c r => is_markup c || has_markup r
  end.

Definition starts_with_space (s : string) : bool :=
  match s with
  | EmptyString => false
  | String c _ => Validator.is_space c
  end.

Fixpoint ends_with_space (s : string) : bool :=
  match s with
  | EmptyString => false
  | String c EmptyString => Validator.is_space c
  | String _ r => ends_with_space r
  end.

(** * Properties *)

(** ** Facts on the string functions *)

Lemma all_alnum_app (s t : string) :
  Validator.all_alnum (s ++ t)%string = Validator.all_alnum s && Validator.all_alnum t.
Proof.
  induction s as [|c s IH]; simpl; [reflexivity|].
  now rewrite IH, andb_assoc.
Qed.

Lemma all_alnum_escape_char (c : ascii) :
  Validator.all_alnum (Validator.escape_char c) = Validator.is_alnum c.
Proof.
  destruct c as [[] [] [] [] [] [] [] []]; reflexivity.
Qed.

Lemma all_alnum_escape (s : string) :
  Validator.all_alnum (Validator.escape s) = Validator.all_alnum s.
Proof.
  induction s as [|c s IH]; simpl; [reflexivity|].
  now rewrite all_alnum_app, all_alnum_escape_char, IH.
Qed.

Lemma escape_char_nonempty (c : ascii) : Validator.escape_char c <> EmptyString.
Proof.
  destruct c as [[] [] [] [] [] [] [] []]; discriminate.
Qed.

Lemma escape_empty_iff (s : string) :
  Validator.escape s = EmptyString <-> s = EmptyString.
Proof.
  destruct s as [|c s]; simpl; [tauto|].
  split; [|discriminate].
  destruct (Validator.escape_char c) eqn:E; [|discriminate].
  now destruct (escape_char_nonempty c).
Qed.

(** Escaping does not change whether a string is alphanumeric: the check
    that follows [escape()] in a chain decides the same as on the trimmed
    value. *)
Lemma isAlphanumeric_escape (s : string) :
  Validator.isAlphanumeric (Validator.escape s) = Validator.isAlphanumeric s.
Proof.
  destruct s as [|c s]; [reflexivity|].
  unfold Validator.isAlphanumeric.
  destruct (Validator.escape (String c s)) eqn:E.
  - apply (proj1 (escape_empty_iff _)) in E. discriminate E.
  - rewrite <- E. apply all_alnum_escape.
Qed.

Lemma isLength_1 (s : string) :
  Validator.isLength 1 s = negb (s =? EmptyString)%string.
Proof. destruct s; reflexivity. Qed.

Lemma escape_alnum_id (s : string) :
  Validator.all_alnum s = true -> Validator.escape s = s.
Proof.
  induction s as [|c s IH]; simpl; [reflexivity|].
  intros H. apply andb_true_iff in H as [Hc Hs]. rewrite (IH Hs).
  revert Hc. destruct c as [[] [] [] [] [] [] [] []]; simpl; try discriminate; reflexivity.
Qed.

(** ** Facts on [Promise.all] *)

Lemma pick_permutation {A : Type} (k : nat) (l : list A) :
  k < List.length l ->
  exists x rest, pick k l = Some (x, rest) /\ Permutation l (x :: rest).
Proof.
  revert k. induction l as [|a l IH]; intros k Hk; simpl in *; [lia|].
  destruct k as [|k]; simpl.
  - exists a, l. split; [reflexivity | apply Permutation_refl].
  - destruct (IH k) as (x & rest & Hp & Hperm); [lia|].
    rewrite Hp. exists x, (a :: rest). split; [reflexivity|].
    apply Permutation_trans with (a :: x :: rest).
    + now apply perm_skip.
    + apply perm_swap.
Qed.

(** Every pending read settles, exactly once. *)
Lemma settle_permutation (st : Store) (n : nat) :
  forall choices pending,
    List.length pending = n ->
    Permutation (settle choices n pending st) (map (answer st) pending).
Proof.
  induction n as [|n IH]; intros choices pending Hlen; simpl.
  - destruct pending; [apply Permutation_refl | discriminate].
  - destruct (pick_permutation (hd 0 choices mod List.length pending) pending)
      as (x & rest & Hp & Hperm).
    { apply Nat.mod_upper_bound. lia. }
    rewrite Hp.
    assert (Hrest : List.length rest = n).
    { apply Permutation_length in Hperm. simpl in Hperm. lia. }
    apply Permutation_trans with (answer st x :: map (answer st) rest).
    + apply perm_skip. now apply IH.
    + apply Permutation_sym.
      exact (Permutation_map (answer st) Hperm).
Qed.

Lemma slot_in (i : nat) (v : Result) (l : list (nat * Result)) :
  NoDup (map fst l) -> In (i, v) l -> slot i l = Some v.
Proof.
  induction l as [|[j w] l IH]; simpl; intros Hnd Hin; [contradiction|].
  inversion Hnd as [|? ? Hnotin Hnd']; subst.
  destruct Hin as [Heq | Hin].
  - inversion Heq; subst. now rewrite Nat.eqb_refl.
  - destruct (Nat.eqb_spec i j) as [->|Hne].
    + exfalso. apply Hnotin. now apply (in_map fst) in Hin.
    + now apply IH.
Qed.

Lemma map_fst_answer (st : Store) (pending : list (nat * Read)) :
  map fst (map (answer st) pending) = map fst pending.
Proof. rewrite map_map. reflexivity. Qed.

Lemma collect_slots (st : Store) (settled : list (nat * Result)) :
  forall reads a,
    (forall i r, In (i, r) (combine (seq a (List.length reads)) reads) ->
                 slot i settled = Some (r st)) ->
    flat_map (fun i => match slot i settled with
                       | Some v => [v]
                       | None => []
                       end) (seq a (List.length reads))
    = map (fun r => r st) reads.
Proof.
  induction reads as [|r reads IH]; intros a H; simpl; [reflexivity|].
  rewrite (H a r) by (simpl; now left). simpl. f_equal.
  apply IH. intros i r' Hin. apply H. simpl. now right.
Qed.

Lemma keys_of_pending {A : Type} (l : list A) (a : nat) :
  map fst (combine (seq a (List.length l)) l) = seq a (List.length l).
Proof.
  revert a. induction l as [|x l IH]; intros a; simpl;
    [reflexivity | now rewrite IH].
Qed.

(** Whatever the order in which the reads settle, [Promise.all] resolves to
    the values of the reads in listed order. *)
Lemma promise_all_listed (choices : list nat) (reads : list Read) (st : Store) :
  promise_all choices reads st = await_each reads st.
Proof.
  unfold promise_all, await_each.
  set (n := List.length reads).
  set (pending := combine (seq 0 n) reads).
  assert (Hlen : List.length pending = n).
  { unfold pending. rewrite length_combine, length_seq. apply Nat.min_id. }
  pose proof (settle_permutation st n choices pending Hlen) as Hperm.
  assert (Hkeys : map fst pending = seq 0 n)
    by apply keys_of_pending.
  apply collect_slots. fold n. fold pending. intros i r Hin.
  apply slot_in.
  - apply Permutation_NoDup with (map fst (map (answer st) pending)).
    + apply Permutation_map. now apply Permutation_sym.
    + rewrite map_fst_answer, Hkeys. apply seq_NoDup.
  - apply Permutation_in with (map (answer st) pending).
    + now apply Permutation_sym.
    + apply (in_map (answer st)) in Hin. exact Hin.
Qed.

(** ** Facts on the ODM calls *)

Section CollectionFacts.
Context {A : Type} (id_of : A -> ObjectId).

Lemma findById_none (id : ObjectId) (c : list A) :
  (forall d, In d c -> id_of d <> id) -> Model.findById id_of id c = None.
Proof.
  induction c as [|d c IH]; intros H; simpl; [reflexivity|].
  destruct (String.eqb_spec (id_of d) id) as [Heq|_].
  - exfalso. apply (H d); [now left | exact Heq].
  - apply IH. intros d' Hin. apply H. now right.
Qed.

Lemma findById_some (id : ObjectId) (c : list A) (d : A) :
  Model.findById id_of id c = Some d -> In d c /\ id_of d = id.
Proof.
  induction c as [|x c IH]; simpl; [discriminate|].
  destruct (String.eqb_spec (id_of x) id) as [Heq|_].
  - intros [= <-]. split; [now left | exact Heq].
  - intros H. destruct (IH H). split; [now right | assumption].
Qed.




Lemma find_nonempty (matches : A -> bool) (c : list A) (d : A) :
  In d c -> matches d = true -> 0 < List.length (Model.find matches c).
Proof.
  intros Hin Hm.
  assert (Hf : In d (Model.find matches c)) by (apply filter_In; now split).
  destruct (Model.find matches c); [contradiction | simpl; lia].
Qed.

Lemma find_empty (matches : A -> bool) (c : list A) :
  (forall d, In d c -> matches d = false) -> Model.find matches c = [].
Proof.
  induction c as [|d c IH]; intros H; simpl; [reflexivity|].
  rewrite (H d) by now left. apply IH. intros x Hin. apply H. now right.
Qed.

Lemma find_everything (c : list A) : Model.find (fun _ => true) c = c.
Proof.
  induction c as [|d c IH]; simpl; [reflexivity | now rewrite IH].
Qed.

(** *** Sorting on a string path *)

Variable key : A -> string.


Lemma insert_by_permutation (d : A) (l : list A) :
  Permutation (Model.insert_by key d l) (d :: l).
Proof.
  induction l as [|x l IH]; simpl; [apply Permutation_refl|].
  destruct (key d <=? key x)%string; [apply Permutation_refl|].
  apply Permutation_trans with (x :: d :: l);
    [now apply perm_skip | apply perm_swap].
Qed.

Lemma sort_permutation (l : list A) : Permutation (Model.sort key l) l.
Proof.
  induction l as [|d l IH]; simpl; [apply Permutation_refl|].
  apply Permutation_trans with (d :: Model.sort key l);
    [apply insert_by_permutation | now apply perm_skip].
Qed.

Lemma insert_by_head (d x : A) (l : list A) :
  (Model.ascending key) x d -> HdRel (Model.ascending key) x l ->
  HdRel (Model.ascending key) x (Model.insert_by key d l).
Proof.
  intros Hxd Hhd. destruct l as [|y l]; simpl; [now constructor|].
  destruct (key d <=? key y)%string; constructor;
    [exact Hxd | now inversion Hhd].
Qed.

Lemma insert_by_sorted (d : A) (l : list A) :
  Sorted (Model.ascending key) l -> Sorted (Model.ascending key) (Model.insert_by key d l).
Proof.
  induction 1 as [|x l Hs IH Hhd]; simpl.
  - repeat constructor.
  - destruct (key d <=? key x)%string eqn:E.
    + constructor; [now constructor | now constructor].
    + constructor; [exact IH|].
      apply insert_by_head; [|exact Hhd].
      unfold Model.ascending. destruct (String.leb_total (key x) (key d)) as [H|H];
        [exact H | congruence].
Qed.

Lemma sort_sorted (l : list A) : Sorted (Model.ascending key) (Model.sort key l).
Proof.
  induction l as [|d l IH]; simpl; [constructor | now apply insert_by_sorted].
Qed.

End CollectionFacts.

Lemma set_authors_same (st : Store) : set_authors st (authors st) = st.
Proof. now destruct st. Qed.

Lemma set_books_same (st : Store) : set_books st (books st) = st.
Proof. now destruct st. Qed.

(** A list sorted on a path stays sorted under a map that keeps the path. *)
Lemma sorted_map {A B : Type} (f : A -> B) (ka : A -> string)
  (kb : B -> string) (l : list A) :
  (forall x, kb (f x) = ka x) ->
  Sorted (Model.ascending ka) l -> Sorted (Model.ascending kb) (map f l).
Proof.
  intros Hk. induction 1 as [|x l Hs IH Hhd]; simpl; constructor.
  - exact IH.
  - destruct Hhd as [|y l' Hxy]; simpl; constructor.
    unfold Model.ascending in *. now rewrite !Hk.
Qed.

(** ** The handlers *)

Ltac listed := rewrite ?promise_all_listed; unfold await_each, read; simpl.

Lemma books_by_author_dependent (id : ObjectId) (st : Store) :
  (exists b, In b (books st) /\ Book.author b = id) ->
  0 < List.length (books_by_author id st).
Proof.
  intros (b & Hin & Hb). unfold books_by_author. rewrite length_map.
  apply (find_nonempty (by_author id) (books st) b Hin).
  unfold by_author. rewrite Hb. apply String.eqb_refl.
Qed.

Lemma instances_by_book_dependent (id : ObjectId) (st : Store) :
  (exists i, In i (bookinstances st) /\ BookInstance.book i = id) ->
  0 < List.length (instances_by_book id st).
Proof.
  intros (i & Hin & Hi). unfold instances_by_book.
  apply (find_nonempty (by_book id) (bookinstances st) i Hin).
  unfold by_book. rewrite Hi. apply String.eqb_refl.
Qed.

Lemma books_by_author_none (id : ObjectId) (st : Store) :
  (forall b, In b (books st) -> Book.author b <> id) ->
  books_by_author id st = [].
Proof.
  intros H. unfold books_by_author. rewrite find_empty; [reflexivity|].
  intros b Hin. unfold by_author. apply String.eqb_neq. now apply H.
Qed.

Lemma instances_by_book_none (id : ObjectId) (st : Store) :
  (forall i, In i (bookinstances st) -> BookInstance.book i <> id) ->
  instances_by_book id st = [].
Proof.
  intros H. unfold instances_by_book. apply find_empty.
  intros i Hin. unfold by_book. apply String.eqb_neq. now apply H.
Qed.

(** C1.  A delete POST on an author or a book whose URL identifier has a
    dependent record (a book of that author, a copy of that book) renders
    the delete page again and leaves the store as it was. *)
Theorem delete_post_with_dependents_keeps_store
  (choices : list nat) (st : Store) (id posted : ObjectId) :
  ((exists b, In b (books st) /\ Book.author b = id) ->
   author_delete_post (promise_all choices) id posted st
   = (render "author_delete"
        (author_delete_locals "Delete Author" (author_by_id id st)
           (books_by_author id st)), st))
  /\
  ((exists i, In i (bookinstances st) /\ BookInstance.book i = id) ->
   book_delete_post (promise_all choices) id posted st
   = (render "book_delete"
        (book_delete_locals "Delete Book" (book_by_id id st)
           (instances_by_book id st)), st)).
Proof.
  split; intros Hdep.
  - unfold author_delete_post. listed.
    apply books_by_author_dependent in Hdep.
    apply Nat.ltb_lt in Hdep. now rewrite Hdep.
  - unfold book_delete_post. listed.
    apply instances_by_book_dependent in Hdep.
    apply Nat.ltb_lt in Hdep. now rewrite Hdep.
Qed.

Lemma delete_post_with_dependents_keeps_store_witness :
  snd (author_delete_post (promise_all [1; 0]) "a1" "a1" library) = library
  /\ snd (book_delete_post (promise_all [1; 0]) "b1" "b1" library) = library.
Proof.
  split.
  - rewrite (proj1 (delete_post_with_dependents_keeps_store
                      [1; 0] library "a1" "a1")); [reflexivity|].
    exists foundation. split; [simpl; auto | reflexivity].
  - rewrite (proj2 (delete_post_with_dependents_keeps_store
                      [1; 0] library "b1" "b1")); [reflexivity|].
    exists foundation_copy. split; [simpl; auto | reflexivity].
Defined.

(** C2, as the code has it.  A detail page, or the author update form,
    asked for an identifier that casts to an ObjectId and that no stored
    document has forwards an error of status 404 to [next] and renders
    nothing.  For an identifier that does not cast the query rejects and the
    handler forwards that error, which has no status. *)
Theorem detail_of_unknown_id_forwards_404
  (casts : string -> bool) (choices : list nat) (st : Store) (id : ObjectId) :
  (casts id = true ->
   (unused Author._id id (authors st) ->
    author_detail_cast casts (promise_all choices) id st
    = (next (not_found "Author not found"), st)
    /\ author_update_get_cast casts id st
       = (next (not_found "Author not found"), st))
   /\
   (unused Book._id id (books st) ->
    book_detail_cast casts (promise_all choices) id st
    = (next (not_found "Book not found"), st)))
  /\
  (casts id = false ->
   author_detail_cast casts (promise_all choices) id st = (next cast_error, st)
   /\ author_update_get_cast casts id st = (next cast_error, st)
   /\ book_detail_cast casts (promise_all choices) id st
      = (next cast_error, st))
  /\ (forall m, status (not_found m) = Some 404)
  /\ status cast_error = None.
Proof.
  unfold author_detail_cast, author_update_get_cast, book_detail_cast,
    querying.
  split; [|split; [|split; reflexivity]].
  - intros Hc. rewrite Hc. split.
    + intros H. split.
      * unfold author_detail. listed.
        unfold author_by_id. now rewrite (findById_none Author._id id _ H).
      * unfold author_update_get, author_by_id.
        now rewrite (findById_none Author._id id _ H).
    + intros H. unfold book_detail. listed.
      unfold book_populated. now rewrite (findById_none Book._id id _ H).
  - intros Hc. now rewrite Hc.
Qed.

Lemma detail_of_unknown_id_forwards_404_witness :
  author_detail_cast sample_casts (promise_all [1]) "a9" library
  = (next (not_found "Author not found"), library)
  /\ book_detail_cast sample_casts (promise_all [0; 0])
       "5f8d0d55b54764421b7156c3" library
     = (next (not_found "Book not found"), library)
  /\ author_update_get_cast sample_casts "xyz" library
     = (next cast_error, library).
Proof.
  destruct (detail_of_unknown_id_forwards_404 sample_casts [1] library "a9")
    as (Ha & _).
  destruct (detail_of_unknown_id_forwards_404 sample_casts [0; 0] library
              "5f8d0d55b54764421b7156c3") as (Hb & _).
  destruct (detail_of_unknown_id_forwards_404 sample_casts [] library "xyz")
    as (_ & Hx & _).
  split; [|split].
  - apply (Ha eq_refl). simpl. intros a [<-|[<-|[]]]; discriminate.
  - apply (Hb eq_refl). simpl. intros b [<-|[<-|[]]]; discriminate.
  - apply (Hx eq_refl).
Defined.

(** C2 as first stated fails: no stored document has the identifier [xyz],
    yet the detail pages forward an error that is not a 404. *)
Lemma detail_of_uncastable_id_is_no_404 :
  ~ (forall (casts : string -> bool) (choices : list nat) (st : Store)
            (id : ObjectId),
        unused Author._id id (authors st) ->
        unused Book._id id (books st) ->
        exists err err',
          author_detail_cast casts (promise_all choices) id st
          = (next err, st)
          /\ book_detail_cast casts (promise_all choices) id st
             = (next err', st)
          /\ status err = Some 404 /\ status err' = Some 404).
Proof.
  intros H.
  destruct (H sample_casts [] library "xyz") as (err & err' & Ha & _ & Hs & _).
  - simpl. intros a [<-|[<-|[]]]; discriminate.
  - simpl. intros b [<-|[<-|[]]]; discriminate.
  - vm_compute in Ha. injection Ha as <-. discriminate Hs.
Qed.

(** An author who still has a book is deleted when another identifier, one
    without books, is in the URL. *)
Example delete_post_orphans_a_book :
  author_delete_post (promise_all [0]) "a9" "a1" library
  = (redirect "/catalog/authors", set_authors library [bova])
  /\ books_by_author "a1" library <> [].
Proof. split; [reflexivity | discriminate]. Qed.



(** C7.  The first middleware of the book forms gives an array for every
    genre value: the empty array for [undefined], the array of the value
    alone for any other value that is not an array, an array as it is; so
    running it twice is running it once.  The book create and update forms
    start with it. *)
Theorem convert_genre_gives_an_array :
  convert_genre JUndefined = JArray []
  /\ (forall v, isArray v = false -> v <> JUndefined ->
                convert_genre v = JArray [v])
  /\ (forall l, convert_genre (JArray l) = JArray l)
  /\ (forall v, isArray (convert_genre v) = true)
  /\ (forall v, convert_genre (convert_genre v) = convert_genre v)
  /\ (forall escape_elements body,
        body_genre (fst (book_chains escape_elements body))
        = escape_elements (convert_genre (BookForm.genre body))).
Proof.
  split; [reflexivity|].
  split; [intros v Ha Hu; destruct v; try reflexivity;
          [now destruct Hu | discriminate]|].
  split; [reflexivity|].
  split; [intros v; now destruct v|].
  split; [intros v; now destruct v|].
  reflexivity.
Qed.

Lemma convert_genre_gives_an_array_witness :
  convert_genre (JString "g1") = JArray [JString "g1"]
  /\ convert_genre JNull = JArray [JNull].
Proof.
  destruct convert_genre_gives_an_array as (_ & Hone & _).
  split; apply Hone; (reflexivity || discriminate).
Defined.

(** The home page shows the five counts. *)
Lemma index_counts (choices : list nat) (st : Store) :
  index (promise_all choices) st
  = (render "index"
       (index_locals "Local Library Home"
          (List.length (books st))
          (List.length (bookinstances st))
          (List.length (filter available (bookinstances st)))
          (List.length (authors st))
          (List.length (genres st))), st).
Proof.
  unfold index. listed. unfold Model.countDocuments, everything.
  now rewrite !find_everything.
Qed.

(** C8.  A handler that waits for several reads with [Promise.all] answers
    as the same handler awaiting the reads one by one in listed order on the
    same store, whatever the order in which the reads settle. *)
Theorem promise_all_handlers_as_sequential
  (book_url : Book.t -> string) (escape_elements : JsVal -> JsVal)
  (cast_genre : JsVal -> list ObjectId)
  (choices : list nat) (st : Store) (id posted oid : ObjectId)
  (body : BookForm.t) :
  index (promise_all choices) st = index await_each st
  /\ author_detail (promise_all choices) id st = author_detail await_each id st
  /\ author_delete_get (promise_all choices) id st
     = author_delete_get await_each id st
  /\ author_delete_post (promise_all choices) id posted st
     = author_delete_post await_each id posted st
  /\ book_detail (promise_all choices) id st = book_detail await_each id st
  /\ book_create_get (promise_all choices) st = book_create_get await_each st
  /\ book_create_post book_url escape_elements cast_genre
       (promise_all choices) oid body st
     = book_create_post book_url escape_elements cast_genre
         await_each oid body st
  /\ book_delete_get (promise_all choices) id st
     = book_delete_get await_each id st
  /\ book_delete_post (promise_all choices) id posted st
     = book_delete_post await_each id posted st
  /\ book_update_get (promise_all choices) id st
     = book_update_get await_each id st
  /\ book_update_post book_url escape_elements cast_genre
       (promise_all choices) id body st
     = book_update_post book_url escape_elements cast_genre
         await_each id body st.
Proof.
  unfold index, author_detail, author_delete_get, author_delete_post,
    book_detail, book_create_get, book_create_post, book_delete_get,
    book_delete_post, book_update_get, book_update_post.
  rewrite !promise_all_listed.
  repeat split.
Qed.

(** C6.  In every store the author list page shows all the authors in
    ascending order of family name, and the book list page all the books in
    ascending order of title. *)
Theorem list_pages_show_all_sorted (st : Store) :
  (exists l,
      author_list st
      = (render "author_list" (author_list_locals "Author List" l), st)
      /\ Permutation l (authors st)
      /\ Sorted (Model.ascending Author.family_name) l)
  /\
  (exists l,
      book_list st = (render "book_list" (book_list_locals "Book List" l), st)
      /\ Permutation l
           (map (fun b => populate_listed st (title_author b)) (books st))
      /\ Sorted (Model.ascending BookTitleAuthor.title) l).
Proof.
  split.
  - exists (authors_by_family_name st). split; [reflexivity|].
    unfold authors_by_family_name, everything. rewrite find_everything.
    split; [apply sort_permutation | apply sort_sorted].
  - exists (books_by_title st). split; [reflexivity|].
    unfold books_by_title, everything. rewrite find_everything. split.
    + rewrite <- (map_map title_author (populate_listed st)).
      apply Permutation_map. apply sort_permutation.
    + apply sorted_map with (ka := BookTitleAuthor.title);
        [reflexivity | apply sort_sorted].
Qed.

(** ** Validation *)

Section ValidationFacts.
Variable isISO8601 : string -> bool.
Variable toDate : string -> option Date.
Variable escape_elements : JsVal -> JsVal.

Lemma has_error_app (f : string) (l1 l2 : list ValidationError) :
  has_error f (l1 ++ l2) = has_error f l1 || has_error f l2.
Proof. apply existsb_app. Qed.

Lemma isAlphanumeric_nonempty (s : string) :
  Validator.isAlphanumeric s = true -> Validator.isLength 1 s = true.
Proof. destruct s; [discriminate | reflexivity]. Qed.

(** A name chain reports its field when, and only when, the trimmed value
    is not alphanumeric; the empty string is not. *)
Lemma has_error_name_chain (f g m1 m2 : string) (v : option string) :
  has_error f (snd (name_chain g m1 m2 v))
  = (g =? f)%string
    && negb (Validator.isAlphanumeric (Validator.trim (toString v))).
Proof.
  unfold name_chain. simpl. rewrite isAlphanumeric_escape.
  destruct (Validator.isAlphanumeric (Validator.trim (toString v))) eqn:E.
  - rewrite (isAlphanumeric_nonempty _ E). simpl. now rewrite andb_false_r.
  - destruct (Validator.isLength 1 (Validator.trim (toString v))); simpl;
      destruct (g =? f)%string; reflexivity.
Qed.

Lemma has_error_text_chain (f g m : string) (v : option string) :
  has_error f (snd (text_chain g m v))
  = (g =? f)%string && (Validator.trim (toString v) =? EmptyString)%string.
Proof.
  unfold text_chain. simpl. rewrite isLength_1.
  destruct (Validator.trim (toString v) =? EmptyString)%string; simpl.
  - now rewrite orb_false_r, andb_true_r.
  - now rewrite andb_false_r.
Qed.

Lemma has_error_date_chain (f g m : string) (v : option string) :
  has_error f (snd (date_chain isISO8601 toDate g m v))
  = (g =? f)%string
    && match truthy_date v with
       | Some s => negb (isISO8601 s)
       | None => false
       end.
Proof.
  unfold date_chain, truthy_date. destruct v as [s|]; simpl.
  - destruct (s =? EmptyString)%string; simpl.
    + now rewrite andb_false_r.
    + destruct (isISO8601 s); simpl.
      * now rewrite andb_false_r.
      * now rewrite orb_false_r, andb_true_r.
  - now rewrite andb_false_r.
Qed.

Lemma author_chains_errors (body : AuthorForm.t) :
  snd (author_chains isISO8601 toDate body)
  = snd (name_chain "first_name" "First name must be specified."
           "First name has non-alphanumeric characters."
           (AuthorForm.first_name body))
    ++ snd (name_chain "family_name" "Family name must be specified."
              "Family name has non-alphanumeric characters."
              (AuthorForm.family_name body))
    ++ snd (date_chain isISO8601 toDate "date_of_birth"
              "Invalid date of birth" (AuthorForm.date_of_birth body))
    ++ snd (date_chain isISO8601 toDate "date_of_death"
              "Invalid date of death" (AuthorForm.date_of_death body)).
Proof.
  unfold author_chains.
  destruct (name_chain "first_name" _ _ _), (name_chain "family_name" _ _ _),
    (date_chain _ _ "date_of_birth" _ _), (date_chain _ _ "date_of_death" _ _).
  reflexivity.
Qed.

Lemma book_chains_errors (body : BookForm.t) :
  snd (book_chains escape_elements body)
  = snd (text_chain "title" "Title must not be empty." (BookForm.title body))
    ++ snd (text_chain "author" "Author must not be empty."
              (BookForm.author body))
    ++ snd (text_chain "summary" "Summary must not be empty."
              (BookForm.summary body))
    ++ snd (text_chain "isbn" "ISBN must not be empty" (BookForm.isbn body)).
Proof. reflexivity. Qed.

Lemma author_chains_body (body : AuthorForm.t) :
  fst (author_chains isISO8601 toDate body)
  = {| body_first_name :=
         Validator.escape
           (Validator.trim (toString (AuthorForm.first_name body)));
       body_family_name :=
         Validator.escape
           (Validator.trim (toString (AuthorForm.family_name body)));
       body_date_of_birth :=
         fst (date_chain isISO8601 toDate "date_of_birth"
                "Invalid date of birth" (AuthorForm.date_of_birth body));
       body_date_of_death :=
         fst (date_chain isISO8601 toDate "date_of_death"
                "Invalid date of death" (AuthorForm.date_of_death body)) |}.
Proof.
  unfold author_chains, name_chain.
  destruct (date_chain _ _ "date_of_birth" _ _), (date_chain _ _ "date_of_death" _ _).
  reflexivity.
Qed.

Lemma book_chains_body (body : BookForm.t) :
  fst (book_chains escape_elements body)
  = {| body_title :=
         Validator.escape (Validator.trim (toString (BookForm.title body)));
       body_author :=
         Validator.escape (Validator.trim (toString (BookForm.author body)));
       body_summary :=
         Validator.escape (Validator.trim (toString (BookForm.summary body)));
       body_isbn :=
         Validator.escape (Validator.trim (toString (BookForm.isbn body)));
       body_genre := escape_elements (convert_genre (BookForm.genre body)) |}.
Proof. reflexivity. Qed.

(** C5.  The chains of the forms report a field exactly when its value
    breaks the rule of the field: [first_name] and [family_name] unless the
    trimmed value is non-empty and alphanumeric; [date_of_birth] and
    [date_of_death] when a value is sent, is not falsy and is not an
    ISO 8601 date; [title], [author], [summary] and [isbn] of a book form
    when the trimmed value is empty. *)
Theorem chains_report_each_broken_field
  (a : AuthorForm.t) (b : BookForm.t) :
  let errors := snd (author_chains isISO8601 toDate a) in
  let book_errors := snd (book_chains escape_elements b) in
  let trimmed v := Validator.trim (toString v) in
  let named v :=
    trimmed v <> EmptyString /\ Validator.all_alnum (trimmed v) = true in
  let dated v := forall s, truthy_date v = Some s -> isISO8601 s = true in
  (has_error "first_name" errors = false <-> named (AuthorForm.first_name a))
  /\ (has_error "family_name" errors = false
      <-> named (AuthorForm.family_name a))
  /\ (has_error "date_of_birth" errors = false
      <-> dated (AuthorForm.date_of_birth a))
  /\ (has_error "date_of_death" errors = false
      <-> dated (AuthorForm.date_of_death a))
  /\ (has_error "title" book_errors = false
      <-> trimmed (BookForm.title b) <> EmptyString)
  /\ (has_error "author" book_errors = false
      <-> trimmed (BookForm.author b) <> EmptyString)
  /\ (has_error "summary" book_errors = false
      <-> trimmed (BookForm.summary b) <> EmptyString)
  /\ (has_error "isbn" book_errors = false
      <-> trimmed (BookForm.isbn b) <> EmptyString).
Proof.
  intros errors book_errors trimmed named dated.
  assert (Hnamed : forall v,
             negb (Validator.isAlphanumeric (trimmed v)) = false <-> named v).
  { intros v. unfold named, Validator.isAlphanumeric.
    destruct (trimmed v) as [|c s] eqn:E; simpl.
    - split; [discriminate | intros [H _]; now destruct H].
    - rewrite negb_false_iff. split.
      + intros H. split; [discriminate | exact H].
      + now intros [_ H]. }
  assert (Hdated : forall v,
             match truthy_date v with
             | Some s => negb (isISO8601 s)
             | None => false
             end = false <-> dated v).
  { intros v. unfold dated. destruct (truthy_date v) as [s|].
    - rewrite negb_false_iff. split.
      + now intros H s' [= <-].
      + intros H. now apply H.
    - split; [discriminate | reflexivity]. }
  assert (Htext : forall v,
             (trimmed v =? EmptyString)%string = false
             <-> trimmed v <> EmptyString).
  { intros v. apply String.eqb_neq. }
  unfold errors, book_errors.
  rewrite author_chains_errors, book_chains_errors.
  rewrite !has_error_app, !has_error_name_chain, !has_error_date_chain,
    !has_error_text_chain.
  simpl.
  rewrite ?orb_false_r.
  repeat match goal with |- _ /\ _ => split end;
    first [apply Hnamed | apply Hdated | apply Htext].
Qed.

End ValidationFacts.

Lemma chains_report_each_broken_field_witness :
  has_error "first_name"
    (snd (author_chains sample_isISO8601 sample_toDate valid_author_form))
  = false
  /\ has_error "date_of_birth"
       (snd (author_chains sample_isISO8601 sample_toDate valid_author_form))
     = false
  /\ Validator.trim (toString (BookForm.title valid_book_form)) <> EmptyString.
Proof.
  pose proof (chains_report_each_broken_field sample_isISO8601 sample_toDate
                sample_escape_elements valid_author_form valid_book_form)
    as (Hfirst & _ & Hbirth & _ & Htitle & _).
  split; [|split].
  - apply Hfirst. split; [discriminate | reflexivity].
  - apply Hbirth. intros s [= <-]. reflexivity.
  - apply Htitle. reflexivity.
Defined.

(** ** Forms *)

Section FormFacts.
Variable isISO8601 : string -> bool.
Variable toDate : string -> option Date.
Variable author_url : Author.t -> string.
Variable book_url : Book.t -> string.
Variable escape_elements : JsVal -> JsVal.
Variable cast_genre : JsVal -> list ObjectId.

Lemma isEmpty_false (errors : list ValidationError) :
  errors <> [] -> negb (isEmpty errors) = true.
Proof. destruct errors; [now intros H | reflexivity]. Qed.

(** C3.  A create or update POST with a validation error renders its form
    again, with the document built from the sanitized fields (the escaped,
    trimmed text) and the list of the errors, and leaves the store as it
    was. *)
Theorem invalid_form_is_rendered_again
  (choices : list nat) (st : Store) (id : ObjectId)
  (a : AuthorForm.t) (b : BookForm.t) :
  let clean v := Validator.escape (Validator.trim (toString v)) in
  (snd (author_chains isISO8601 toDate a) <> [] ->
   let (body, errors) := author_chains isISO8601 toDate a in
   author_create_post isISO8601 toDate author_url id a st
   = (render "author_form"
        (author_form_locals "Create Author" (Some (new_author id body))
           (Some errors)), st)
   /\ author_update_post isISO8601 toDate author_url id a st
      = (render "author_form"
           (author_form_locals "Update Author" (Some (new_author id body))
              (Some errors)), st)
   /\ Author.first_name (new_author id body) = clean (AuthorForm.first_name a)
   /\ Author.family_name (new_author id body)
      = clean (AuthorForm.family_name a))
  /\
  (snd (book_chains escape_elements b) <> [] ->
   let (body, errors) := book_chains escape_elements b in
   let book := new_book cast_genre id body (body_genre body) in
   let updated :=
     new_book cast_genre id body
       (if is_undefined (body_genre body) then JArray []
        else body_genre body) in
   book_create_post book_url escape_elements cast_genre
     (promise_all choices) id b st
   = (render "book_form"
        (book_form_locals "Create Book" (authors_by_family_name st)
           (mark_checked book (genres_by_name st)) (Some book)
           (Some errors)), st)
   /\ book_update_post book_url escape_elements cast_genre
        (promise_all choices) id b st
      = (render "book_form"
           (book_form_locals "Update Book" (authors_by_family_name st)
              (mark_checked updated (genres_by_name st)) (Some updated)
              (Some errors)), st)
   /\ Book.title book = clean (BookForm.title b)
   /\ Book.author book = clean (BookForm.author b)
   /\ Book.summary book = clean (BookForm.summary b)
   /\ Book.isbn book = clean (BookForm.isbn b)).
Proof.
  intros clean. split.
  - intros Herr.
    unfold author_create_post, author_update_post.
    pose proof (author_chains_body isISO8601 toDate a) as Hbody.
    destruct (author_chains isISO8601 toDate a) as [body errors].
    simpl in Herr, Hbody. rewrite (isEmpty_false errors Herr).
    subst body. repeat split.
  - intros Herr.
    unfold book_create_post, book_update_post.
    pose proof (book_chains_body escape_elements b) as Hbody.
    destruct (book_chains escape_elements b) as [body errors].
    simpl in Herr, Hbody. rewrite (isEmpty_false errors Herr).
    rewrite !promise_all_listed. subst body. repeat split.
Qed.

Lemma errors_empty (errors : list ValidationError) :
  errors = [] -> negb (isEmpty errors) = false.
Proof. now intros ->. Qed.

(** With no error the escaped name is the trimmed name. *)
Lemma valid_name_is_trimmed (g m1 m2 : string) (v : option string) :
  snd (name_chain g m1 m2 v) = [] ->
  fst (name_chain g m1 m2 v) = Validator.trim (toString v).
Proof.
  unfold name_chain. simpl. intros H.
  apply app_eq_nil in H as [_ H].
  rewrite isAlphanumeric_escape in H.
  apply escape_alnum_id.
  destruct (Validator.trim (toString v)) as [|c s]; [reflexivity|].
  simpl in H. destruct (Validator.is_alnum c && Validator.all_alnum s) eqn:E;
    [exact E | discriminate].
Qed.

(** C4.  An author create POST whose fields all pass validation saves one
    new author, built from the sanitized fields, after the authors of the
    store, touches nothing else, and redirects to the URL of that author. *)
Theorem valid_author_is_saved_and_shown
  (st : Store) (oid : ObjectId) (a : AuthorForm.t) :
  snd (author_chains isISO8601 toDate a) = [] ->
  let author := new_author oid (fst (author_chains isISO8601 toDate a)) in
  let st' := snd (author_create_post isISO8601 toDate author_url oid a st) in
  author_create_post isISO8601 toDate author_url oid a st
  = (redirect (author_url author), st')
  /\ authors st' = authors st ++ [author]
  /\ books st' = books st
  /\ bookinstances st' = bookinstances st
  /\ genres st' = genres st
  /\ Author._id author = oid
  /\ Author.first_name author
     = Validator.trim (toString (AuthorForm.first_name a))
  /\ Author.family_name author
     = Validator.trim (toString (AuthorForm.family_name a))
  /\ Author.date_of_birth author
     = cast_date (fst (date_chain isISO8601 toDate "date_of_birth"
                         "Invalid date of birth"
                         (AuthorForm.date_of_birth a)))
  /\ Author.date_of_death author
     = cast_date (fst (date_chain isISO8601 toDate "date_of_death"
                         "Invalid date of death"
                         (AuthorForm.date_of_death a))).
Proof.
  intros Hok author st'.
  assert (Hpost : author_create_post isISO8601 toDate author_url oid a st
                  = (redirect (author_url author),
                     set_authors st (Model.save author (authors st)))).
  { unfold author_create_post, author.
    destruct (author_chains isISO8601 toDate a) as [body errors].
    simpl in Hok. now rewrite (errors_empty errors Hok). }
  unfold st'. rewrite Hpost. simpl.
  rewrite author_chains_errors in Hok.
  apply app_eq_nil in Hok as [Hfirst Hok].
  apply app_eq_nil in Hok as [Hfamily _].
  unfold author. rewrite author_chains_body. simpl.
  change (Validator.escape
            (Validator.trim (toString (AuthorForm.first_name a))))
    with (fst (name_chain "first_name" "First name must be specified."
                 "First name has non-alphanumeric characters."
                 (AuthorForm.first_name a))).
  change (Validator.escape
            (Validator.trim (toString (AuthorForm.family_name a))))
    with (fst (name_chain "family_name" "Family name must be specified."
                 "Family name has non-alphanumeric characters."
                 (AuthorForm.family_name a))).
  rewrite (valid_name_is_trimmed _ _ _ _ Hfirst),
    (valid_name_is_trimmed _ _ _ _ Hfamily).
  repeat split.
Qed.


End FormFacts.

Lemma invalid_form_is_rendered_again_witness :
  snd (author_chains sample_isISO8601 sample_toDate invalid_author_form) <> []
  /\ snd (author_create_post sample_isISO8601 sample_toDate sample_author_url
            "a3" invalid_author_form library) = library
  /\ snd (book_update_post sample_book_url sample_escape_elements
            sample_cast_genre (promise_all [1]) "b1" invalid_book_form
            library) = library.
Proof.
  assert (Ha : snd (author_chains sample_isISO8601 sample_toDate
                      invalid_author_form) <> [])
    by (vm_compute; discriminate).
  assert (Hb : snd (book_chains sample_escape_elements invalid_book_form)
               <> [])
    by (vm_compute; discriminate).
  split; [exact Ha | split].
  - pose proof (proj1 (invalid_form_is_rendered_again
                         sample_isISO8601 sample_toDate sample_author_url
                         sample_book_url sample_escape_elements
                         sample_cast_genre [1] library "a3"
                         invalid_author_form invalid_book_form) Ha) as H.
    destruct (author_chains sample_isISO8601 sample_toDate
                invalid_author_form) as [body errors].
    destruct H as (Hcreate & _). now rewrite Hcreate.
  - pose proof (proj2 (invalid_form_is_rendered_again
                         sample_isISO8601 sample_toDate sample_author_url
                         sample_book_url sample_escape_elements
                         sample_cast_genre [1] library "b1"
                         invalid_author_form invalid_book_form) Hb) as H.
    destruct (book_chains sample_escape_elements invalid_book_form)
      as [body errors].
    destruct H as (_ & Hupdate & _). now rewrite Hupdate.
Defined.

Lemma valid_author_is_saved_and_shown_witness :
  snd (author_chains sample_isISO8601 sample_toDate valid_author_form) = []
  /\ authors (snd (author_create_post sample_isISO8601 sample_toDate
                     sample_author_url "a3" valid_author_form library))
     = [bova; asimov;
        {| Author._id := "a3"; Author.first_name := "Arthur";
           Author.family_name := "Clarke";
           Author.date_of_birth := OnDate 0%Z;
           Author.date_of_death := Null |}].
Proof.
  assert (Hok : snd (author_chains sample_isISO8601 sample_toDate
                       valid_author_form) = []) by reflexivity.
  split; [exact Hok|].
  destruct (valid_author_is_saved_and_shown sample_isISO8601 sample_toDate
              sample_author_url library "a3" valid_author_form Hok)
    as (_ & Hauthors & _).
  rewrite Hauthors. reflexivity.
Defined.


(** * Further properties of the handlers *)

(** ** More facts on the ODM calls *)

Section UpdateFacts.
Context {A : Type} (id_of : A -> ObjectId).

Lemma findByIdAndDelete_unused (id : ObjectId) (c : list A) :
  unused id_of id c -> Model.findByIdAndDelete id_of id c = c.
Proof.
  induction c as [|d c IH]; intros H; simpl; [reflexivity|].
  destruct (String.eqb_spec (id_of d) id) as [Heq|_].
  - exfalso. apply (H d); [now left | exact Heq].
  - f_equal. apply IH. intros x Hin. apply H. now right.
Qed.

Lemma findByIdAndDelete_keeps (id : ObjectId) (c : list A) (d : A) :
  In d c -> id_of d <> id -> In d (Model.findByIdAndDelete id_of id c).
Proof.
  induction c as [|x c IH]; simpl; [contradiction|].
  intros [<-|Hin] Hne.
  - destruct (String.eqb_spec (id_of x) id); [contradiction | now left].
  - destruct (String.eqb_spec (id_of x) id); [exact Hin|].
    right. now apply IH.
Qed.

Lemma findByIdAndDelete_incl (id : ObjectId) (c : list A) (d : A) :
  In d (Model.findByIdAndDelete id_of id c) -> In d c.
Proof.
  induction c as [|x c IH]; simpl; [contradiction|].
  destruct (String.eqb_spec (id_of x) id).
  - now right.
  - intros [<-|Hin]; [now left | right; now apply IH].
Qed.

Lemma findByIdAndDelete_unique (id : ObjectId) (c : list A) :
  unique_ids id_of c -> unique_ids id_of (Model.findByIdAndDelete id_of id c).
Proof.
  unfold unique_ids. induction c as [|x c IH]; simpl; [trivial|].
  intros Hnd. inversion Hnd as [|? ? Hnotin Hnd']; subst.
  destruct (String.eqb_spec (id_of x) id); [exact Hnd'|].
  simpl. constructor; [|now apply IH].
  intros Hin. apply Hnotin. apply in_map_iff in Hin as (y & Hy & Hin).
  apply in_map_iff. exists y. split; [exact Hy|].
  now apply findByIdAndDelete_incl in Hin.
Qed.


Lemma findById_saved (d : A) (c : list A) :
  unused id_of (id_of d) c ->
  Model.findById id_of (id_of d) (Model.save d c) = Some d.
Proof.
  unfold Model.save.
  induction c as [|x c IH]; intros H; simpl.
  - now rewrite String.eqb_refl.
  - destruct (String.eqb_spec (id_of x) (id_of d)) as [Heq|_].
    + exfalso. apply (H x); [now left | exact Heq].
    + apply IH. intros y Hin. apply H. now right.
Qed.

Lemma findById_save_other (id : ObjectId) (d : A) (c : list A) :
  id_of d <> id ->
  Model.findById id_of id (Model.save d c) = Model.findById id_of id c.
Proof.
  unfold Model.save. intros Hne.
  induction c as [|x c IH]; simpl.
  - destruct (String.eqb_spec (id_of d) id); [contradiction | reflexivity].
  - now rewrite IH.
Qed.

(** Saving a document under an unused identifier and deleting that
    identifier gives the collection back. *)
Lemma findByIdAndDelete_saved (d : A) (c : list A) :
  unused id_of (id_of d) c ->
  Model.findByIdAndDelete id_of (id_of d) (Model.save d c) = c.
Proof.
  unfold Model.save.
  induction c as [|x c IH]; intros H; simpl.
  - now rewrite String.eqb_refl.
  - destruct (String.eqb_spec (id_of x) (id_of d)) as [Heq|_].
    + exfalso. apply (H x); [now left | exact Heq].
    + f_equal. apply IH. intros y Hin. apply H. now right.
Qed.

Lemma save_unique (d : A) (c : list A) :
  unique_ids id_of c -> unused id_of (id_of d) c ->
  unique_ids id_of (Model.save d c).
Proof.
  unfold unique_ids, Model.save. intros Hnd Hfresh.
  rewrite map_app. simpl.
  apply Permutation_NoDup with (id_of d :: map id_of c).
  - apply Permutation_cons_append.
  - constructor; [|exact Hnd].
    intros Hin. apply in_map_iff in Hin as (x & Hx & Hin).
    now apply (Hfresh x Hin).
Qed.

Variable id : ObjectId.
Variable update : A -> A.
Hypothesis update_keeps_id : forall d, id_of d = id -> id_of (update d) = id.

Lemma findByIdAndUpdate_found (c : list A) (d : A) :
  Model.findById id_of id c = Some d ->
  exists before after,
    c = before ++ d :: after
    /\ Model.findByIdAndUpdate id_of id update c
       = (Some d, before ++ update d :: after).
Proof.
  induction c as [|x c IH]; simpl; [discriminate|].
  destruct (String.eqb_spec (id_of x) id) as [Heq|Hne].
  - intros [= <-]. now exists [], c.
  - intros H. destruct (IH H) as (before & after & -> & Hupd).
    exists (x :: before), after. rewrite Hupd. now split.
Qed.

Lemma findByIdAndUpdate_ids (c : list A) :
  map id_of (snd (Model.findByIdAndUpdate id_of id update c)) = map id_of c.
Proof.
  induction c as [|x c IH]; simpl; [reflexivity|].
  destruct (String.eqb_spec (id_of x) id) as [Heq|Hne]; simpl.
  - now rewrite (update_keeps_id x Heq), Heq.
  - destruct (Model.findByIdAndUpdate id_of id update c) as [found c'].
    simpl in *. now rewrite IH.
Qed.

Lemma findById_updated (c : list A) (d : A) :
  Model.findById id_of id c = Some d ->
  Model.findById id_of id (snd (Model.findByIdAndUpdate id_of id update c))
  = Some (update d).
Proof.
  induction c as [|x c IH]; simpl; [discriminate|].
  destruct (String.eqb_spec (id_of x) id) as [Heq|Hne]; simpl.
  - intros [= <-]. rewrite (update_keeps_id x Heq).
    now rewrite String.eqb_refl.
  - intros H.
    destruct (Model.findByIdAndUpdate id_of id update c) as [found c']
      eqn:E.
    simpl in *. destruct (String.eqb_spec (id_of x) id); [contradiction|].
    now apply IH.
Qed.

Lemma findById_update_other (other : ObjectId) (c : list A) :
  other <> id ->
  Model.findById id_of other (snd (Model.findByIdAndUpdate id_of id update c))
  = Model.findById id_of other c.
Proof.
  intros Hne. induction c as [|x c IH]; simpl; [reflexivity|].
  destruct (String.eqb_spec (id_of x) id) as [Heq|Hx]; simpl.
  - rewrite (update_keeps_id x Heq).
    destruct (String.eqb_spec id other) as [Heq'|_];
      destruct (String.eqb_spec (id_of x) other) as [Heq''|_];
      try reflexivity; exfalso; apply Hne; congruence.
  - destruct (Model.findByIdAndUpdate id_of id update c) as [found c'].
    simpl in *. now rewrite IH.
Qed.

Hypothesis update_twice : forall d, update (update d) = update d.

Lemma findByIdAndUpdate_twice (c : list A) :
  snd (Model.findByIdAndUpdate id_of id update
         (snd (Model.findByIdAndUpdate id_of id update c)))
  = snd (Model.findByIdAndUpdate id_of id update c).
Proof.
  induction c as [|x c IH]; simpl; [reflexivity|].
  destruct (String.eqb_spec (id_of x) id) as [Heq|Hne]; simpl.
  - rewrite (update_keeps_id x Heq), String.eqb_refl.
    simpl. now rewrite update_twice.
  - destruct (Model.findByIdAndUpdate id_of id update c) as [found c'].
    simpl in *.
    destruct (String.eqb_spec (id_of x) id); [contradiction|].
    destruct (Model.findByIdAndUpdate id_of id update c') as [found' c''].
    simpl in *. now rewrite IH.
Qed.

End UpdateFacts.

(** ** Pages that only read *)

Ltac split_results :=
  repeat match goal with
         | |- context [match ?x with _ => _ end] => destruct x
         end.

(** X1.  The handlers of the GET routes only read: whatever they answer,
    and however their reads are gathered, the store is as it was. *)
Theorem get_handlers_keep_store (gather : Gather) (st : Store) (id : ObjectId) :
  snd (index gather st) = st
  /\ snd (author_list st) = st
  /\ snd (author_detail gather id st) = st
  /\ snd (author_create_get st) = st
  /\ snd (author_delete_get gather id st) = st
  /\ snd (author_update_get id st) = st
  /\ snd (book_list st) = st
  /\ snd (book_detail gather id st) = st
  /\ snd (book_create_get gather st) = st
  /\ snd (book_delete_get gather id st) = st
  /\ snd (book_update_get gather id st) = st.
Proof.
  unfold index, author_list, author_detail, author_create_get,
    author_delete_get, author_update_get, book_list, book_detail,
    book_create_get, book_delete_get, book_update_get.
  repeat match goal with |- _ /\ _ => split end;
    split_results; reflexivity.
Qed.

(** X2.  A delete form asked for an identifier that casts and that no
    document has answers with a redirect to the list page, not with an
    error; for a stored document it shows the document with its dependents;
    for an identifier that does not cast it forwards the error of the
    query. *)
Theorem delete_get_redirects_or_shows
  (casts : string -> bool) (choices : list nat) (st : Store) (id : ObjectId) :
  (casts id = true ->
   (unused Author._id id (authors st) ->
    author_delete_get_cast casts (promise_all choices) id st
    = (redirect "/catalog/authors", st))
   /\
   (unused Book._id id (books st) ->
    book_delete_get_cast casts (promise_all choices) id st
    = (redirect "/catalog/books", st))
   /\
   (forall a, author_by_id id st = Some a ->
    author_delete_get_cast casts (promise_all choices) id st
    = (render "author_delete"
         (author_delete_locals "Delete Author" (Some a)
            (books_by_author id st)), st))
   /\
   (forall b, book_by_id id st = Some b ->
    book_delete_get_cast casts (promise_all choices) id st
    = (render "book_delete"
         (book_delete_locals "Delete Book" (Some b)
            (instances_by_book id st)), st)))
  /\
  (casts id = false ->
   author_delete_get_cast casts (promise_all choices) id st
   = (next cast_error, st)
   /\ book_delete_get_cast casts (promise_all choices) id st
      = (next cast_error, st)).
Proof.
  unfold author_delete_get_cast, book_delete_get_cast, querying.
  split; intros Hc; rewrite Hc; [|now split].
  split; [|split; [|split]].
  - intros H. unfold author_delete_get. listed.
    unfold author_by_id. now rewrite (findById_none Author._id id _ H).
  - intros H. unfold book_delete_get. listed.
    unfold book_by_id. now rewrite (findById_none Book._id id _ H).
  - intros a Ha. unfold author_delete_get. listed. now rewrite Ha.
  - intros b Hb. unfold book_delete_get. listed. now rewrite Hb.
Qed.

Lemma delete_get_redirects_or_shows_witness :
  author_delete_get_cast sample_casts (promise_all [1]) "a9" library
  = (redirect "/catalog/authors", library)
  /\ book_delete_get_cast sample_casts (promise_all [1]) "b1" library
     = (render "book_delete"
          (book_delete_locals "Delete Book" (Some foundation)
             [foundation_copy]), library)
  /\ author_delete_get_cast sample_casts (promise_all [1]) "xyz" library
     = (next cast_error, library).
Proof.
  destruct (delete_get_redirects_or_shows sample_casts [1] library "a9")
    as (Ha & _).
  destruct (delete_get_redirects_or_shows sample_casts [1] library "b1")
    as (Hb & _).
  destruct (delete_get_redirects_or_shows sample_casts [1] library "xyz")
    as (_ & Hx).
  split; [|split].
  - apply (proj1 (Ha eq_refl)).
    simpl. intros d [<-|[<-|[]]]; discriminate.
  - apply (proj2 (proj2 (proj2 (Hb eq_refl)))). reflexivity.
  - apply (proj1 (Hx eq_refl)).
Defined.

Lemma mark_checked_genres {A : Type} (book : Book.doc A ObjectId)
  (allGenres : list Genre.t) :
  map option_genre (mark_checked book allGenres) = allGenres.
Proof.
  unfold mark_checked. rewrite map_map. simpl. apply map_id.
Qed.

Lemma mark_checked_spec {A : Type} (book : Book.doc A ObjectId)
  (allGenres : list Genre.t) (o : GenreOption) :
  In o (mark_checked book allGenres) ->
  (checked o = true <-> In (Genre._id (option_genre o)) (Book.genre book)).
Proof.
  unfold mark_checked. intros Hin.
  apply in_map_iff in Hin as (g & <- & _). simpl.
  rewrite existsb_exists. split.
  - intros (x & Hx & Heq). apply String.eqb_eq in Heq. now subst.
  - intros Hx. exists (Genre._id g). split; [exact Hx|].
    apply String.eqb_refl.
Qed.

(** X3.  The book update form of an identifier that does not cast forwards
    the error of the query, and of one that casts and that no book has an
    error of status 404.  For a stored book it shows the book with its
    author populated, the authors by family name, and every genre by name,
    checked exactly when the book has it. *)
Theorem book_update_get_shows_checked_genres
  (casts : string -> bool) (choices : list nat) (st : Store) (id : ObjectId) :
  (casts id = false ->
   book_update_get_cast casts (promise_all choices) id st
   = (next cast_error, st))
  /\
  (casts id = true ->
   (unused Book._id id (books st) ->
    book_update_get_cast casts (promise_all choices) id st
    = (next (not_found "Book not found"), st))
   /\
   (forall b, book_by_id id st = Some b ->
    exists options,
      book_update_get_cast casts (promise_all choices) id st
      = (render "book_form"
           (book_update_form_locals "Update Book" (authors_by_family_name st)
              options (populate_author st b)), st)
      /\ map option_genre options = genres_by_name st
      /\ (forall o, In o options ->
                    (checked o = true
                     <-> In (Genre._id (option_genre o)) (Book.genre b))))).
Proof.
  unfold book_update_get_cast, querying.
  split; intros Hc; rewrite Hc; [reflexivity|].
  split.
  - intros H. unfold book_update_get. listed.
    unfold book_with_author. now rewrite (findById_none Book._id id _ H).
  - intros b Hb.
    exists (mark_checked (populate_author st b) (genres_by_name st)).
    split; [|split].
    + unfold book_update_get. listed. unfold book_with_author.
      unfold book_by_id in Hb. now rewrite Hb.
    + apply mark_checked_genres.
    + intros o Ho. now apply mark_checked_spec in Ho.
Qed.

Lemma book_update_get_shows_checked_genres_witness :
  book_update_get_cast sample_casts (promise_all [2; 0]) "b9" library
  = (next (not_found "Book not found"), library)
  /\ book_update_get_cast sample_casts (promise_all [2; 0]) "xyz" library
     = (next cast_error, library)
  /\ exists options,
       fst (book_update_get_cast sample_casts (promise_all [2; 0]) "b1"
              library)
       = render "book_form"
           (book_update_form_locals "Update Book" [asimov; bova] options
              (populate_author library foundation))
       /\ map checked options = [true].
Proof.
  destruct (book_update_get_shows_checked_genres sample_casts [2; 0] library
              "b9") as (_ & Hunknown).
  destruct (book_update_get_shows_checked_genres sample_casts [2; 0] library
              "xyz") as (Hx & _).
  destruct (book_update_get_shows_checked_genres sample_casts [2; 0] library
              "b1") as (_ & Hstored).
  split; [|split].
  - apply (proj1 (Hunknown eq_refl)).
    simpl. intros d [<-|[<-|[]]]; discriminate.
  - apply (Hx eq_refl).
  - destruct (proj2 (Hstored eq_refl) foundation eq_refl)
      as (options & Hget & Hgenres & Hchecked).
    exists options. rewrite Hget. split; [reflexivity|].
    destruct options as [|o [|o' options]]; try discriminate Hgenres.
    simpl in Hgenres. injection Hgenres as Hg. simpl. f_equal.
    apply (Hchecked o); [now left|]. rewrite Hg. simpl. now left.
Defined.

(** ** More on the forms *)

Lemma has_markup_app (s t : string) :
  has_markup (s ++ t)%string = has_markup s || has_markup t.
Proof.
  induction s as [|c s IH]; simpl; [reflexivity|].
  now rewrite IH, orb_assoc.
Qed.

Lemma has_markup_escape_char (c : ascii) :
  has_markup (Validator.escape_char c) = false.
Proof. destruct c as [[] [] [] [] [] [] [] []]; reflexivity. Qed.

(** What [escape] gives holds none of the characters it replaces, the
    ampersand of the entities apart. *)
Lemma has_markup_escape (s : string) : has_markup (Validator.escape s) = false.
Proof.
  induction s as [|c s IH]; simpl; [reflexivity|].
  now rewrite has_markup_app, has_markup_escape_char, IH.
Qed.

Lemma starts_with_space_ltrim (s : string) :
  starts_with_space (Validator.ltrim s) = false.
Proof.
  induction s as [|c s IH]; simpl; [reflexivity|].
  destruct (Validator.is_space c) eqn:E; [exact IH | simpl; exact E].
Qed.

Lemma starts_with_space_rtrim (s : string) :
  starts_with_space s = false -> starts_with_space (Validator.rtrim s) = false.
Proof.
  destruct s as [|c s]; simpl; [reflexivity|]. intros E.
  destruct (Validator.rtrim s); [rewrite E; simpl|simpl]; exact E.
Qed.

Lemma ends_with_space_rtrim (s : string) :
  ends_with_space (Validator.rtrim s) = false.
Proof.
  induction s as [|c s IH]; simpl; [reflexivity|].
  destruct (Validator.rtrim s) as [|c' r].
  - destruct (Validator.is_space c) eqn:E; simpl; [reflexivity | exact E].
  - exact IH.
Qed.

Lemma starts_with_space_escape (s : string) :
  starts_with_space (Validator.escape s) = starts_with_space s.
Proof.
  destruct s as [|c s]; simpl; [reflexivity|].
  destruct c as [[] [] [] [] [] [] [] []]; reflexivity.
Qed.

Lemma ends_with_space_app (s t : string) :
  t <> EmptyString -> ends_with_space (s ++ t)%string = ends_with_space t.
Proof.
  intros Ht. induction s as [|c s IH]; simpl; [reflexivity|].
  destruct (s ++ t)%string eqn:E; [|exact IH].
  destruct s; simpl in E; [now destruct Ht | discriminate].
Qed.

Lemma ends_with_space_escape (s : string) :
  ends_with_space (Validator.escape s) = ends_with_space s.
Proof.
  induction s as [|c s IH]; [reflexivity|].
  destruct s as [|c' s].
  - simpl. destruct c as [[] [] [] [] [] [] [] []]; reflexivity.
  - change (Validator.escape (String c (String c' s)))
      with (Validator.escape_char c ++ Validator.escape (String c' s))%string.
    rewrite ends_with_space_app, IH; [reflexivity|].
    intros H. apply (proj1 (escape_empty_iff _)) in H. discriminate H.
Qed.

(** The text a chain leaves: trimmed at both ends, then escaped. *)
Lemma clean_text_shape (v : option string) :
  let s := Validator.escape (Validator.trim (toString v)) in
  has_markup s = false
  /\ starts_with_space s = false
  /\ ends_with_space s = false.
Proof.
  simpl. split; [apply has_markup_escape | split].
  - rewrite starts_with_space_escape. unfold Validator.trim.
    apply starts_with_space_rtrim, starts_with_space_ltrim.
  - rewrite ends_with_space_escape. apply ends_with_space_rtrim.
Qed.

Section MoreFormFacts.
Variable isISO8601 : string -> bool.
Variable toDate : string -> option Date.
Variable author_url : Author.t -> string.
Variable book_url : Book.t -> string.
Variable escape_elements : JsVal -> JsVal.
Variable cast_genre : JsVal -> list ObjectId.

(** X4.  A book create POST whose fields all pass validation, and whose
    author and genre cast to references, saves one new book after the books
    of the store, built from the escaped, trimmed fields and the converted
    genre, touches nothing else and redirects to the URL of the book; the
    author it names is not looked up.  When the author or the genre does
    not cast, the save rejects: the error goes to [next] and the store is
    as it was. *)
Theorem valid_book_is_saved_and_shown
  (casts : string -> bool) (genre_casts : JsVal -> bool)
  (choices : list nat) (st : Store) (oid : ObjectId) (b : BookForm.t) :
  snd (book_chains escape_elements b) = [] ->
  let clean v := Validator.escape (Validator.trim (toString v)) in
  let genre := escape_elements (convert_genre (BookForm.genre b)) in
  let book :=
    {| Book._id := oid;
       Book.title := clean (BookForm.title b);
       Book.author := clean (BookForm.author b);
       Book.summary := clean (BookForm.summary b);
       Book.isbn := clean (BookForm.isbn b);
       Book.genre := cast_genre genre |} in
  (casts (clean (BookForm.author b)) = true -> genre_casts genre = true ->
   book_create_post_cast casts genre_casts book_url escape_elements
     cast_genre (promise_all choices) oid b st
   = (redirect (book_url book),
      {| authors := authors st; books := books st ++ [book];
         bookinstances := bookinstances st; genres := genres st |}))
  /\
  (casts (clean (BookForm.author b)) && genre_casts genre = false ->
   book_create_post_cast casts genre_casts book_url escape_elements
     cast_genre (promise_all choices) oid b st
   = (next validation_error, st)).
Proof.
  intros Hok. cbv zeta beta.
  unfold book_create_post_cast, book_create_post.
  pose proof (book_chains_body escape_elements b) as Hbody.
  destruct (book_chains escape_elements b) as [body errors].
  simpl in Hok, Hbody. subst errors. subst body. simpl.
  split.
  - intros Ha Hg. rewrite Ha, Hg. reflexivity.
  - intros Hno. rewrite Hno. reflexivity.
Qed.

(** X5.  The genre of a book form never fails validation: two forms with
    the same title, author, summary and ISBN have the same errors, whatever
    their genres. *)
Theorem genre_never_fails_validation
  (escape_elements' : JsVal -> JsVal) (b b' : BookForm.t) :
  BookForm.title b = BookForm.title b' ->
  BookForm.author b = BookForm.author b' ->
  BookForm.summary b = BookForm.summary b' ->
  BookForm.isbn b = BookForm.isbn b' ->
  snd (book_chains escape_elements b) = snd (book_chains escape_elements' b').
Proof.
  intros Ht Ha Hs Hi. rewrite !book_chains_errors.
  now rewrite Ht, Ha, Hs, Hi.
Qed.

(** X6.  A name that is empty once trimmed is reported twice, first as not
    specified and then as not alphanumeric: the chain does not stop at the
    first failure.  A name that is not empty is never reported as not
    specified. *)
Theorem empty_name_is_reported_twice (a : AuthorForm.t) :
  let errors := snd (author_chains isISO8601 toDate a) in
  let missing := field_error "first_name" "First name must be specified." in
  let odd :=
    field_error "first_name" "First name has non-alphanumeric characters." in
  (Validator.trim (toString (AuthorForm.first_name a)) = EmptyString ->
   exists rest, errors = missing :: odd :: rest)
  /\
  (Validator.trim (toString (AuthorForm.first_name a)) <> EmptyString ->
   ~ In missing errors).
Proof.
  intros errors missing odd. unfold errors.
  rewrite author_chains_errors. split.
  - intros Hempty. unfold name_chain at 1. simpl. rewrite Hempty. simpl.
    eexists. reflexivity.
  - intros Hfull Hin.
    unfold name_chain, date_chain in Hin. simpl in Hin.
    rewrite !isLength_1 in Hin.
    apply String.eqb_neq in Hfull. rewrite Hfull in Hin. simpl in Hin.
    repeat match type of Hin with
           | context [if ?c then _ else _] => destruct c; simpl in Hin
           | context [match ?v with Some _ => _ | None => _ end] =>
               destruct v; simpl in Hin
           end;
      repeat match type of Hin with
             | _ \/ _ => destruct Hin as [Hin|Hin]
             end;
      try discriminate Hin; try contradiction.
Qed.

(** X7.  Whatever is posted, the text fields that the chains leave in the
    body of an author or a book form hold no quote, angle bracket, slash,
    backslash or back quote, and neither start nor end with white space. *)
Theorem sanitized_text_is_clean (a : AuthorForm.t) (b : BookForm.t) :
  let shaped s :=
    has_markup s = false /\ starts_with_space s = false
    /\ ends_with_space s = false in
  let author := fst (author_chains isISO8601 toDate a) in
  let book := fst (book_chains escape_elements b) in
  shaped (body_first_name author)
  /\ shaped (body_family_name author)
  /\ shaped (body_title book)
  /\ shaped (body_author book)
  /\ shaped (body_summary book)
  /\ shaped (body_isbn book).
Proof.
  intros shaped author book. unfold author, book.
  rewrite author_chains_body, book_chains_body. simpl.
  repeat match goal with |- _ /\ _ => split end; apply clean_text_shape.
Qed.

End MoreFormFacts.

Lemma valid_book_is_saved_and_shown_witness :
  snd (book_chains sample_escape_elements valid_book_form) = []
  /\ books (snd (book_create_post_cast sample_casts sample_genre_casts
                   sample_book_url sample_escape_elements sample_cast_genre
                   (promise_all [0]) "b3" valid_book_form library))
     = [mars; foundation;
        {| Book._id := "b3"; Book.title := "Rendezvous with Rama";
           Book.author := "a1"; Book.summary := "A cylinder";
           Book.isbn := "9780553287899"; Book.genre := ["g1"] |}]
  /\ book_create_post_cast sample_casts sample_genre_casts
       sample_book_url sample_escape_elements sample_cast_genre
       (promise_all [0]) "b3" stray_book_form library
     = (next validation_error, library).
Proof.
  assert (Hok : snd (book_chains sample_escape_elements valid_book_form) = [])
    by reflexivity.
  split; [exact Hok | split].
  - rewrite (proj1 (valid_book_is_saved_and_shown sample_book_url
                      sample_escape_elements sample_cast_genre sample_casts
                      sample_genre_casts [0] library "b3" valid_book_form
                      Hok) eq_refl eq_refl).
    reflexivity.
  - apply (proj2 (valid_book_is_saved_and_shown sample_book_url
                    sample_escape_elements sample_cast_genre sample_casts
                    sample_genre_casts [0] library "b3" stray_book_form
                    eq_refl)).
    reflexivity.
Defined.

Lemma genre_never_fails_validation_witness :
  snd (book_chains sample_escape_elements valid_book_form)
  = snd (book_chains (fun v => v)
           {| BookForm.title := BookForm.title valid_book_form;
              BookForm.author := BookForm.author valid_book_form;
              BookForm.summary := BookForm.summary valid_book_form;
              BookForm.isbn := BookForm.isbn valid_book_form;
              BookForm.genre := JObject [("x", JNull)] |}).
Proof.
  apply genre_never_fails_validation; reflexivity.
Defined.

Lemma empty_name_is_reported_twice_witness :
  (exists rest,
      snd (author_chains sample_isISO8601 sample_toDate
             {| AuthorForm.first_name := Some "   ";
                AuthorForm.family_name := Some "Clarke";
                AuthorForm.date_of_birth := None;
                AuthorForm.date_of_death := None |})
      = field_error "first_name" "First name must be specified."
        :: field_error "first_name"
             "First name has non-alphanumeric characters." :: rest)
  /\ ~ In (field_error "first_name" "First name must be specified.")
         (snd (author_chains sample_isISO8601 sample_toDate
                 invalid_author_form)).
Proof.
  split.
  - apply (proj1 (empty_name_is_reported_twice sample_isISO8601 sample_toDate
                    {| AuthorForm.first_name := Some "   ";
                       AuthorForm.family_name := Some "Clarke";
                       AuthorForm.date_of_birth := None;
                       AuthorForm.date_of_death := None |})).
    reflexivity.
  - apply (proj2 (empty_name_is_reported_twice sample_isISO8601 sample_toDate
                    invalid_author_form)).
    discriminate.
Defined.

(** ** Updates *)

Section UpdatePosts.
Variable isISO8601 : string -> bool.
Variable toDate : string -> option Date.
Variable author_url : Author.t -> string.
Variable book_url : Book.t -> string.
Variable escape_elements : JsVal -> JsVal.
Variable cast_genre : JsVal -> list ObjectId.

Lemma author_update_keeps_id (id : ObjectId) (body : AuthorBody)
  (d : Author.t) :
  Author._id d = id ->
  Author._id (author_update (new_author id body) d) = id.
Proof. reflexivity. Qed.

Lemma author_update_twice (new d : Author.t) :
  author_update new (author_update new d) = author_update new d.
Proof.
  unfold author_update. simpl. f_equal;
    [destruct (Author.date_of_birth new) | destruct (Author.date_of_death new)];
    reflexivity.
Qed.

Lemma book_update_keeps_id (id : ObjectId) (body : BookBody) (genre : JsVal)
  (d : Book.t) :
  Book._id d = id ->
  Book._id (book_update (new_book cast_genre id body genre) d) = id.
Proof. reflexivity. Qed.

(** What a valid author update POST does to the store. *)
Lemma author_update_post_valid (st : Store) (id : ObjectId)
  (a : AuthorForm.t) :
  snd (author_chains isISO8601 toDate a) = [] ->
  let new := new_author id (fst (author_chains isISO8601 toDate a)) in
  let result :=
    Model.findByIdAndUpdate Author._id id (author_update new) (authors st) in
  author_update_post isISO8601 toDate author_url id a st
  = (match fst result with
     | Some updatedAuthor => redirect (author_url updatedAuthor)
     | None => next null_url_error
     end, set_authors st (snd result)).
Proof.
  intros Hok new result. unfold author_update_post, result, new.
  destruct (author_chains isISO8601 toDate a) as [body errors].
  simpl in Hok. rewrite (errors_empty errors Hok). simpl.
  destruct (Model.findByIdAndUpdate _ _ _ _) as [[updated|] c]; reflexivity.
Qed.

Lemma book_update_post_valid (choices : list nat) (st : Store)
  (id : ObjectId) (b : BookForm.t) :
  snd (book_chains escape_elements b) = [] ->
  let body := fst (book_chains escape_elements b) in
  let new :=
    new_book cast_genre id body
      (if is_undefined (body_genre body) then JArray []
       else body_genre body) in
  let result :=
    Model.findByIdAndUpdate Book._id id (book_update new) (books st) in
  book_update_post book_url escape_elements cast_genre
    (promise_all choices) id b st
  = (match fst result with
     | Some updatedBook => redirect (book_url updatedBook)
     | None => next null_url_error
     end, set_books st (snd result)).
Proof.
  intros Hok body new result. unfold book_update_post, result, new, body.
  destruct (book_chains escape_elements b) as [body' errors].
  simpl in Hok. rewrite (errors_empty errors Hok). simpl.
  destruct (Model.findByIdAndUpdate _ _ _ _) as [[updated|] c]; reflexivity.
Qed.

(** X8.  A valid update POST for a stored author redirects to the URL of
    the author as it was stored, and leaves under the identifier an author
    with the trimmed names.  The identifiers of the collection, every other
    author and the other collections are as before. *)
Theorem valid_author_update_sets_names
  (st : Store) (id : ObjectId) (a : AuthorForm.t) (old : Author.t) :
  snd (author_chains isISO8601 toDate a) = [] ->
  author_by_id id st = Some old ->
  let st' := snd (author_update_post isISO8601 toDate author_url id a st) in
  fst (author_update_post isISO8601 toDate author_url id a st)
  = redirect (author_url old)
  /\ (exists new,
         author_by_id id st' = Some new
         /\ Author._id new = id
         /\ Author.first_name new
            = Validator.trim (toString (AuthorForm.first_name a))
         /\ Author.family_name new
            = Validator.trim (toString (AuthorForm.family_name a)))
  /\ map Author._id (authors st') = map Author._id (authors st)
  /\ (forall other, other <> id -> author_by_id other st' = author_by_id other st)
  /\ books st' = books st
  /\ bookinstances st' = bookinstances st
  /\ genres st' = genres st.
Proof.
  intros Hok Hold st'. unfold st'.
  rewrite (author_update_post_valid st id a Hok). simpl.
  set (new := new_author id (fst (author_chains isISO8601 toDate a))).
  unfold author_by_id in *. simpl.
  destruct (findByIdAndUpdate_found Author._id id (author_update new)
              (authors st) old Hold) as (before & after & Hc & Hupd).
  split; [now rewrite Hupd|].
  split.
  - exists (author_update new old). split; [|split; [reflexivity|]].
    + apply findById_updated; [|exact Hold].
      intros d Hd. reflexivity.
    + unfold new. simpl. rewrite author_chains_body. simpl.
      rewrite author_chains_errors in Hok.
      apply app_eq_nil in Hok as [Hfirst Hok].
      apply app_eq_nil in Hok as [Hfamily _].
      split.
      * exact (valid_name_is_trimmed _ _ _ _ Hfirst).
      * exact (valid_name_is_trimmed _ _ _ _ Hfamily).
  - split; [|split; [|repeat split]].
    + apply findByIdAndUpdate_ids. intros d Hd. reflexivity.
    + intros other Hne. apply findById_update_other; [|exact Hne].
      intros d Hd. reflexivity.
Qed.


(** X10.  Posting the same update twice leaves the store as posting it
    once, for every form, valid or not, and every identifier. *)
Theorem update_post_twice_is_once
  (choices choices' : list nat) (st : Store) (id : ObjectId)
  (a : AuthorForm.t) (b : BookForm.t) :
  snd (author_update_post isISO8601 toDate author_url id a
         (snd (author_update_post isISO8601 toDate author_url id a st)))
  = snd (author_update_post isISO8601 toDate author_url id a st)
  /\
  snd (book_update_post book_url escape_elements cast_genre
         (promise_all choices') id b
         (snd (book_update_post book_url escape_elements cast_genre
                 (promise_all choices) id b st)))
  = snd (book_update_post book_url escape_elements cast_genre
           (promise_all choices) id b st).
Proof.
  split.
  - destruct (snd (author_chains isISO8601 toDate a)) as [|e errors] eqn:E.
    + rewrite (author_update_post_valid st id a E).
      rewrite (author_update_post_valid _ id a E).
      unfold set_authors. simpl. f_equal.
      apply findByIdAndUpdate_twice.
      * intros d Hd. reflexivity.
      * apply author_update_twice.
    + unfold author_update_post.
      destruct (author_chains isISO8601 toDate a) as [body errors'].
      simpl in E. subst errors'. reflexivity.
  - destruct (snd (book_chains escape_elements b)) as [|e errors] eqn:E.
    + rewrite (book_update_post_valid choices st id b E).
      rewrite (book_update_post_valid choices' _ id b E).
      unfold set_books. simpl. f_equal.
      apply findByIdAndUpdate_twice.
      * intros d Hd. reflexivity.
      * reflexivity.
    + unfold book_update_post.
      destruct (book_chains escape_elements b) as [body errors'].
      simpl in E. subst errors'. simpl.
      rewrite !promise_all_listed. reflexivity.
Qed.

End UpdatePosts.

Lemma valid_author_update_sets_names_witness :
  fst (author_update_post sample_isISO8601 sample_toDate sample_author_url
         "a2" valid_author_form library)
  = redirect "/catalog/author/a2"
  /\ option_map Author.family_name
       (author_by_id "a2"
          (snd (author_update_post sample_isISO8601 sample_toDate
                  sample_author_url "a2" valid_author_form library)))
     = Some "Clarke".
Proof.
  destruct (valid_author_update_sets_names sample_isISO8601 sample_toDate
              sample_author_url library "a2" valid_author_form bova
              eq_refl eq_refl)
    as (Hredirect & (new & Hnew & _ & _ & Hfamily) & _).
  split; [exact Hredirect|].
  rewrite Hnew. simpl. now rewrite Hfamily.
Defined.


(** ** Deletions *)

Lemma books_by_author_empty (id : ObjectId) (st : Store) :
  books_by_author id st = [] ->
  forall b, In b (books st) -> Book.author b <> id.
Proof.
  unfold books_by_author. intros H b Hin Heq.
  apply map_eq_nil in H.
  assert (Hf : In b (Model.find (by_author id) (books st))).
  { apply filter_In. split; [exact Hin|].
    unfold by_author. rewrite Heq. apply String.eqb_refl. }
  rewrite H in Hf. contradiction.
Qed.

Lemma instances_by_book_empty (id : ObjectId) (st : Store) :
  instances_by_book id st = [] ->
  forall i, In i (bookinstances st) -> BookInstance.book i <> id.
Proof.
  unfold instances_by_book. intros H i Hin Heq.
  assert (Hf : In i (Model.find (by_book id) (bookinstances st))).
  { apply filter_In. split; [exact Hin|].
    unfold by_book. rewrite Heq. apply String.eqb_refl. }
  rewrite H in Hf. contradiction.
Qed.

(** What the delete POSTs do, by the dependents of the URL identifier. *)
Lemma author_delete_post_cases (choices : list nat) (id posted : ObjectId)
  (st : Store) :
  (books_by_author id st <> []
   /\ snd (author_delete_post (promise_all choices) id posted st) = st)
  \/
  (books_by_author id st = []
   /\ author_delete_post (promise_all choices) id posted st
      = (redirect "/catalog/authors",
         set_authors st
           (Model.findByIdAndDelete Author._id posted (authors st)))).
Proof.
  unfold author_delete_post. listed.
  destruct (books_by_author id st) as [|s l]; simpl.
  - right. now split.
  - left. split; [discriminate | reflexivity].
Qed.

Lemma book_delete_post_cases (choices : list nat) (id posted : ObjectId)
  (st : Store) :
  (instances_by_book id st <> []
   /\ snd (book_delete_post (promise_all choices) id posted st) = st)
  \/
  (instances_by_book id st = []
   /\ book_delete_post (promise_all choices) id posted st
      = (redirect "/catalog/books",
         set_books st (Model.findByIdAndDelete Book._id posted (books st)))).
Proof.
  unfold book_delete_post. listed.
  destruct (instances_by_book id st) as [|s l]; simpl.
  - right. now split.
  - left. split; [discriminate | reflexivity].
Qed.


(** X12.  A delete POST whose identifiers both cast, whose URL identifier
    has no dependents and whose posted identifier names no document deletes
    nothing and still redirects to the list page, as after a deletion.  When
    the posted identifier does not cast, the deletion rejects: the error goes
    to [next] and the store is as it was. *)
Theorem delete_post_of_unknown_id_redirects
  (casts : string -> bool) (choices : list nat) (st : Store)
  (id posted : ObjectId) :
  casts id = true ->
  ((forall b, In b (books st) -> Book.author b <> id) ->
   (casts posted = true -> unused Author._id posted (authors st) ->
    author_delete_post_cast casts (promise_all choices) id posted st
    = (redirect "/catalog/authors", st))
   /\
   (casts posted = false ->
    author_delete_post_cast casts (promise_all choices) id posted st
    = (next cast_error, st)))
  /\
  ((forall i, In i (bookinstances st) -> BookInstance.book i <> id) ->
   (casts posted = true -> unused Book._id posted (books st) ->
    book_delete_post_cast casts (promise_all choices) id posted st
    = (redirect "/catalog/books", st))
   /\
   (casts posted = false ->
    book_delete_post_cast casts (promise_all choices) id posted st
    = (next cast_error, st))).
Proof.
  intros Hid.
  unfold author_delete_post_cast, book_delete_post_cast, querying.
  rewrite Hid. split; intros Hfree.
  - rewrite (books_by_author_none id st Hfree). simpl. split.
    + intros Hc Hunused. rewrite Hc.
      destruct (author_delete_post_cases choices id posted st)
        as [[Hdep _]|[_ Hpost]].
      { now rewrite (books_by_author_none id st Hfree) in Hdep. }
      rewrite Hpost, (findByIdAndDelete_unused Author._id posted _ Hunused).
      now rewrite set_authors_same.
    + intros Hc. now rewrite Hc.
  - rewrite (instances_by_book_none id st Hfree). simpl. split.
    + intros Hc Hunused. rewrite Hc.
      destruct (book_delete_post_cases choices id posted st)
        as [[Hdep _]|[_ Hpost]].
      { now rewrite (instances_by_book_none id st Hfree) in Hdep. }
      rewrite Hpost, (findByIdAndDelete_unused Book._id posted _ Hunused).
      now rewrite set_books_same.
    + intros Hc. now rewrite Hc.
Qed.

(** X13.  When the URL and the body of a delete POST carry the same
    identifier, the check for dependents keeps the references whole: in a
    store where every book names a stored author and every copy a stored
    book, this still holds after the request, deleted or refused. *)
Theorem delete_post_keeps_references
  (choices : list nat) (st : Store) (id : ObjectId) :
  books_have_authors st -> instances_have_books st ->
  let after_author := snd (author_delete_post (promise_all choices) id id st) in
  let after_book := snd (book_delete_post (promise_all choices) id id st) in
  books_have_authors after_author /\ instances_have_books after_author
  /\ books_have_authors after_book /\ instances_have_books after_book.
Proof.
  intros Hbooks Hinst after_author after_book.
  unfold after_author, after_book.
  destruct (author_delete_post_cases choices id id st)
    as [[_ Ha]|[Hnone Ha]]; rewrite Ha;
    destruct (book_delete_post_cases choices id id st)
      as [[_ Hb]|[Hnone' Hb]]; rewrite Hb; simpl;
    repeat match goal with |- _ /\ _ => split end;
    try assumption.
  all: try (intros i Hi; exact (Hinst i Hi)).
  all: try (intros b Hb'; simpl in *;
            destruct (Hbooks b Hb') as (a & Hin & Heq);
            exists a; split; [|exact Heq]; simpl;
            apply findByIdAndDelete_keeps; [exact Hin|];
            rewrite Heq; now apply (books_by_author_empty id st Hnone)).
  all: try (intros b Hb'; simpl in *;
            apply findByIdAndDelete_incl in Hb';
            exact (Hbooks b Hb')).
  all: intros i Hi; simpl in *;
    destruct (Hinst i Hi) as (b & Hin & Heq);
    exists b; split; [|exact Heq];
    apply findByIdAndDelete_keeps; [exact Hin|];
    rewrite Heq; now apply (instances_by_book_empty id st Hnone').
Qed.

Lemma library_references : books_have_authors library /\ instances_have_books library.
Proof.
  split.
  - intros b [<-|[<-|[]]]; [exists bova | exists asimov]; simpl; auto.
  - intros i [<-|[]]. exists foundation. simpl. auto.
Qed.

Lemma library_unique_ids :
  unique_ids Author._id (authors library) /\ unique_ids Book._id (books library).
Proof.
  split; unfold unique_ids; simpl;
    (constructor; [intros [H|[]]; discriminate H|]);
    (constructor; [intros []|]); constructor.
Qed.


Lemma delete_post_of_unknown_id_redirects_witness :
  author_delete_post_cast sample_casts (promise_all [0]) "a9" "a8" library
  = (redirect "/catalog/authors", library)
  /\ book_delete_post_cast sample_casts (promise_all [0]) "b2" "xyz" library
     = (next cast_error, library).
Proof.
  destruct (delete_post_of_unknown_id_redirects sample_casts [0] library
              "a9" "a8" eq_refl) as (Ha & _).
  destruct (delete_post_of_unknown_id_redirects sample_casts [0] library
              "b2" "xyz" eq_refl) as (_ & Hb).
  split.
  - apply Ha.
    + simpl. intros b [<-|[<-|[]]]; discriminate.
    + reflexivity.
    + simpl. intros d [<-|[<-|[]]]; discriminate.
  - apply Hb.
    + simpl. intros i [<-|[]]. discriminate.
    + reflexivity.
Defined.

Lemma delete_post_keeps_references_witness :
  books_have_authors (snd (author_delete_post (promise_all [1]) "a1" "a1" library))
  /\ instances_have_books
       (snd (book_delete_post (promise_all [1]) "b2" "b2" library)).
Proof.
  destruct (delete_post_keeps_references [1] library "a1"
              (proj1 library_references) (proj2 library_references))
    as (Ha & _).
  destruct (delete_post_keeps_references [1] library "b2"
              (proj1 library_references) (proj2 library_references))
    as (_ & _ & _ & Hb).
  split; [exact Ha | exact Hb].
Defined.

(** ** Identifiers stay unique *)

Section UniqueIds.
Variable isISO8601 : string -> bool.
Variable toDate : string -> option Date.
Variable author_url : Author.t -> string.
Variable book_url : Book.t -> string.
Variable escape_elements : JsVal -> JsVal.
Variable cast_genre : JsVal -> list ObjectId.

Lemma author_create_post_cases (oid : ObjectId) (a : AuthorForm.t)
  (st : Store) :
  let author := new_author oid (fst (author_chains isISO8601 toDate a)) in
  (snd (author_chains isISO8601 toDate a) <> []
   /\ snd (author_create_post isISO8601 toDate author_url oid a st) = st)
  \/
  (snd (author_chains isISO8601 toDate a) = []
   /\ author_create_post isISO8601 toDate author_url oid a st
      = (redirect (author_url author),
         set_authors st (Model.save author (authors st)))).
Proof.
  unfold author_create_post.
  destruct (author_chains isISO8601 toDate a) as [body [|e errors]]; simpl.
  - right. now split.
  - left. split; [discriminate | reflexivity].
Qed.

Lemma book_create_post_cases (choices : list nat) (oid : ObjectId)
  (b : BookForm.t) (st : Store) :
  let body := fst (book_chains escape_elements b) in
  let book := new_book cast_genre oid body (body_genre body) in
  (snd (book_chains escape_elements b) <> []
   /\ snd (book_create_post book_url escape_elements cast_genre
             (promise_all choices) oid b st) = st)
  \/
  (snd (book_chains escape_elements b) = []
   /\ book_create_post book_url escape_elements cast_genre
        (promise_all choices) oid b st
      = (redirect (book_url book),
         set_books st (Model.save book (books st)))).
Proof.
  unfold book_create_post.
  destruct (book_chains escape_elements b) as [body [|e errors]]; simpl.
  - right. now split.
  - left. split; [discriminate|]. now rewrite promise_all_listed.
Qed.

Lemma author_update_post_ids (id : ObjectId) (a : AuthorForm.t) (st : Store) :
  map Author._id
    (authors (snd (author_update_post isISO8601 toDate author_url id a st)))
  = map Author._id (authors st).
Proof.
  destruct (snd (author_chains isISO8601 toDate a)) as [|e errors] eqn:E.
  - rewrite (author_update_post_valid isISO8601 toDate author_url st id a E).
    simpl. apply findByIdAndUpdate_ids. intros d Hd. reflexivity.
  - unfold author_update_post.
    destruct (author_chains isISO8601 toDate a) as [body errors'].
    simpl in E. subst errors'. reflexivity.
Qed.

Lemma book_update_post_ids (choices : list nat) (id : ObjectId)
  (b : BookForm.t) (st : Store) :
  map Book._id
    (books (snd (book_update_post book_url escape_elements cast_genre
                   (promise_all choices) id b st)))
  = map Book._id (books st).
Proof.
  destruct (snd (book_chains escape_elements b)) as [|e errors] eqn:E.
  - rewrite (book_update_post_valid book_url escape_elements cast_genre
               choices st id b E).
    simpl. apply findByIdAndUpdate_ids. intros d Hd. reflexivity.
  - unfold book_update_post.
    destruct (book_chains escape_elements b) as [body errors'].
    simpl in E. subst errors'. simpl.
    rewrite promise_all_listed. reflexivity.
Qed.

(** X14.  The POST handlers keep the identifiers of authors and of books
    unique: deletions and updates always, creations when the identifier of
    the new document is not in use. *)
Theorem post_handlers_keep_ids_unique
  (choices : list nat) (st : Store) (id posted oid : ObjectId)
  (a : AuthorForm.t) (b : BookForm.t) :
  unique_ids Author._id (authors st) ->
  unique_ids Book._id (books st) ->
  let kept st' :=
    unique_ids Author._id (authors st') /\ unique_ids Book._id (books st') in
  kept (snd (author_delete_post (promise_all choices) id posted st))
  /\ kept (snd (book_delete_post (promise_all choices) id posted st))
  /\ kept (snd (author_update_post isISO8601 toDate author_url id a st))
  /\ kept (snd (book_update_post book_url escape_elements cast_genre
                  (promise_all choices) id b st))
  /\ (unused Author._id oid (authors st) ->
      kept (snd (author_create_post isISO8601 toDate author_url oid a st)))
  /\ (unused Book._id oid (books st) ->
      kept (snd (book_create_post book_url escape_elements cast_genre
                   (promise_all choices) oid b st))).
Proof.
  intros Ha Hb kept. unfold kept.
  split; [|split; [|split; [|split; [|split]]]].
  - destruct (author_delete_post_cases choices id posted st)
      as [[_ H]|[_ H]]; rewrite H; simpl; [now split|].
    split; [now apply findByIdAndDelete_unique | exact Hb].
  - destruct (book_delete_post_cases choices id posted st)
      as [[_ H]|[_ H]]; rewrite H; simpl; [now split|].
    split; [exact Ha | now apply findByIdAndDelete_unique].
  - split.
    + unfold unique_ids. now rewrite author_update_post_ids.
    + unfold author_update_post.
      destruct (author_chains isISO8601 toDate a) as [body errors].
      destruct (negb (isEmpty errors)); [exact Hb|].
      destruct (Model.findByIdAndUpdate _ _ _ _) as [[u|] c]; exact Hb.
  - split.
    + unfold book_update_post.
      destruct (book_chains escape_elements b) as [body errors].
      destruct (negb (isEmpty errors)).
      * rewrite promise_all_listed. exact Ha.
      * destruct (Model.findByIdAndUpdate _ _ _ _) as [[u|] c]; exact Ha.
    + unfold unique_ids. now rewrite book_update_post_ids.
  - intros Hfresh.
    destruct (author_create_post_cases oid a st) as [[_ H]|[_ H]];
      rewrite H; simpl; [now split|].
    split; [|exact Hb]. apply save_unique; [exact Ha | exact Hfresh].
  - intros Hfresh.
    destruct (book_create_post_cases choices oid b st) as [[_ H]|[_ H]];
      rewrite H; simpl; [now split|].
    split; [exact Ha|]. apply save_unique; [exact Hb | exact Hfresh].
Qed.

(** X15.  The page a valid author create POST redirects to shows the new
    author: with an identifier not in use, the detail page of that
    identifier in the store the POST leaves renders the author built from
    the form, with the books that name the identifier. *)
Theorem created_author_has_a_detail_page
  (choices : list nat) (st : Store) (oid : ObjectId) (a : AuthorForm.t) :
  snd (author_chains isISO8601 toDate a) = [] ->
  unused Author._id oid (authors st) ->
  let author := new_author oid (fst (author_chains isISO8601 toDate a)) in
  let st' := snd (author_create_post isISO8601 toDate author_url oid a st) in
  author_detail (promise_all choices) oid st'
  = (render "author_detail"
       (author_detail_locals "Author Detail" author (books_by_author oid st)),
     st').
Proof.
  intros Hok Hfresh author st'. unfold st'.
  destruct (author_create_post_cases oid a st) as [[Herr _]|[_ H]];
    [contradiction|].
  rewrite H. simpl. fold author.
  unfold author_detail. listed. unfold author_by_id. simpl.
  change oid with (Author._id author) at 1.
  rewrite findById_saved; [reflexivity | exact Hfresh].
Qed.

(** X16.  Creating a document under an identifier not in use and then
    deleting it, when nothing depends on it, gives the store back. *)
Theorem create_then_delete_restores_store
  (choices choices' : list nat) (st : Store) (oid : ObjectId)
  (a : AuthorForm.t) (b : BookForm.t) :
  (unused Author._id oid (authors st) ->
   (forall d, In d (books st) -> Book.author d <> oid) ->
   snd (author_delete_post (promise_all choices) oid oid
          (snd (author_create_post isISO8601 toDate author_url oid a st)))
   = st)
  /\
  (unused Book._id oid (books st) ->
   (forall i, In i (bookinstances st) -> BookInstance.book i <> oid) ->
   snd (book_delete_post (promise_all choices') oid oid
          (snd (book_create_post book_url escape_elements cast_genre
                  (promise_all choices) oid b st)))
   = st).
Proof.
  split; intros Hfresh Hfree.
  - destruct (author_create_post_cases oid a st) as [[_ H]|[_ H]]; rewrite H.
    + destruct (author_delete_post_cases choices oid oid st)
        as [[Hdep _]|[_ Hpost]].
      { now rewrite (books_by_author_none oid st Hfree) in Hdep. }
      rewrite Hpost. simpl.
      rewrite (findByIdAndDelete_unused Author._id oid _ Hfresh).
      apply set_authors_same.
    + cbn [snd].
      set (author := new_author oid (fst (author_chains isISO8601 toDate a))).
      set (st' := set_authors st (Model.save author (authors st))).
      destruct (author_delete_post_cases choices oid oid st')
        as [[Hdep _]|[_ Hpost]].
      { exfalso. apply Hdep. apply books_by_author_none. exact Hfree. }
      rewrite Hpost. unfold st'. simpl.
      change oid with (Author._id author) at 1.
      rewrite findByIdAndDelete_saved; [|exact Hfresh].
      now destruct st.
  - destruct (book_create_post_cases choices oid b st) as [[_ H]|[_ H]];
      rewrite H.
    + destruct (book_delete_post_cases choices' oid oid st)
        as [[Hdep _]|[_ Hpost]].
      { now rewrite (instances_by_book_none oid st Hfree) in Hdep. }
      rewrite Hpost. simpl.
      rewrite (findByIdAndDelete_unused Book._id oid _ Hfresh).
      apply set_books_same.
    + cbn [snd].
      set (body := fst (book_chains escape_elements b)).
      set (book := new_book cast_genre oid body (body_genre body)).
      set (st' := set_books st (Model.save book (books st))).
      destruct (book_delete_post_cases choices' oid oid st')
        as [[Hdep _]|[_ Hpost]].
      { exfalso. apply Hdep. apply instances_by_book_none. exact Hfree. }
      rewrite Hpost. unfold st'. simpl.
      change oid with (Book._id book) at 1.
      rewrite findByIdAndDelete_saved; [|exact Hfresh].
      now destruct st.
Qed.

End UniqueIds.

Lemma post_handlers_keep_ids_unique_witness :
  unique_ids Author._id
    (authors (snd (author_create_post sample_isISO8601 sample_toDate
                     sample_author_url "a3" valid_author_form library)))
  /\ unique_ids Book._id
       (books (snd (book_delete_post (promise_all [0]) "b2" "b2" library))).
Proof.
  destruct (post_handlers_keep_ids_unique sample_isISO8601 sample_toDate
              sample_author_url sample_book_url sample_escape_elements
              sample_cast_genre [0] library "b2" "b2" "a3"
              valid_author_form valid_book_form
              (proj1 library_unique_ids) (proj2 library_unique_ids))
    as (_ & (_ & Hbooks) & _ & _ & Hcreate & _).
  split; [|exact Hbooks].
  apply Hcreate. simpl. intros d [<-|[<-|[]]]; discriminate.
Defined.

Lemma created_author_has_a_detail_page_witness :
  fst (author_detail (promise_all [1]) "a3"
         (snd (author_create_post sample_isISO8601 sample_toDate
                 sample_author_url "a3" valid_author_form library)))
  = render "author_detail"
      (author_detail_locals "Author Detail"
         {| Author._id := "a3"; Author.first_name := "Arthur";
            Author.family_name := "Clarke";
            Author.date_of_birth := OnDate 0%Z;
            Author.date_of_death := Null |} []).
Proof.
  rewrite (created_author_has_a_detail_page sample_isISO8601 sample_toDate
             sample_author_url [1] library "a3" valid_author_form).
  - reflexivity.
  - reflexivity.
  - simpl. intros d [<-|[<-|[]]]; discriminate.
Defined.

Lemma create_then_delete_restores_store_witness :
  snd (author_delete_post (promise_all [1]) "a3" "a3"
         (snd (author_create_post sample_isISO8601 sample_toDate
                 sample_author_url "a3" valid_author_form library)))
  = library
  /\ snd (book_delete_post (promise_all [0]) "b3" "b3"
            (snd (book_create_post sample_book_url sample_escape_elements
                    sample_cast_genre (promise_all [1]) "b3" valid_book_form
                    library)))
     = library.
Proof.
  destruct (create_then_delete_restores_store sample_isISO8601 sample_toDate
              sample_author_url sample_book_url sample_escape_elements
              sample_cast_genre [1] [1] library "a3" valid_author_form
              valid_book_form) as (Ha & _).
  destruct (create_then_delete_restores_store sample_isISO8601 sample_toDate
              sample_author_url sample_book_url sample_escape_elements
              sample_cast_genre [1] [0] library "b3" valid_author_form
              valid_book_form) as (_ & Hb).
  split.
  - apply Ha; simpl.
    + intros d [<-|[<-|[]]]; discriminate.
    + intros d [<-|[<-|[]]]; discriminate.
  - apply Hb; simpl.
    + intros d [<-|[<-|[]]]; discriminate.
    + intros i [<-|[]]. discriminate.
Defined.

(** ** What the pages show *)

(** X17.  The home page shows the sizes of the four collections and the
    number of copies whose status is Available; that number is at most the
    number of copies, with equality exactly when every copy is available.
    This holds whatever the order in which the five counts settle. *)
Theorem index_shows_consistent_counts (choices : list nat) (st : Store) :
  let available_count :=
    List.length
      (filter (fun i => (BookInstance.status i =? "Available")%string)
         (bookinstances st)) in
  index (promise_all choices) st
  = (render "index"
       (index_locals "Local Library Home"
          (List.length (books st))
          (List.length (bookinstances st))
          available_count
          (List.length (authors st))
          (List.length (genres st))), st)
  /\ available_count <= List.length (bookinstances st)
  /\ (available_count = List.length (bookinstances st)
      <-> forall i, In i (bookinstances st) ->
                    BookInstance.status i = "Available").
Proof.
  cbv zeta.
  change (fun i => (BookInstance.status i =? "Available")%string)
    with available.
  split; [apply index_counts | split].
  - apply filter_length_le.
  - induction (bookinstances st) as [|i l IH]; simpl.
    + split; [intros _ i [] | reflexivity].
    + pose proof (filter_length_le available l) as Hle.
      destruct (available i) eqn:E; simpl.
      * split.
        -- intros H x [<-|Hin].
           ++ now apply String.eqb_eq in E.
           ++ apply IH; [lia | exact Hin].
        -- intros H. f_equal. apply IH. intros x Hin. apply H. now right.
      * split; [lia|].
        intros H. unfold available in E.
        rewrite (H i (or_introl eq_refl)) in E. discriminate E.
Qed.

(** X18.  The detail page of a stored author shows the author and, as
    title and summary, exactly the books whose author is the identifier of
    the URL. *)
Theorem author_detail_shows_the_books_of_the_author
  (choices : list nat) (st : Store) (id : ObjectId) (a : Author.t) :
  author_by_id id st = Some a ->
  exists author_books,
    author_detail (promise_all choices) id st
    = (render "author_detail"
         (author_detail_locals "Author Detail" a author_books), st)
    /\ Author._id a = id
    /\ (forall s, In s author_books
                  <-> exists b, In b (books st) /\ Book.author b = id
                                /\ s = title_summary b).
Proof.
  intros Ha. exists (books_by_author id st). split; [|split].
  - unfold author_detail. listed. now rewrite Ha.
  - now apply (findById_some Author._id id (authors st) a).
  - intros s. unfold books_by_author, Model.find. rewrite in_map_iff. split.
    + intros (b & <- & Hin). apply filter_In in Hin as [Hin Hb].
      exists b. split; [exact Hin | split; [|reflexivity]].
      now apply String.eqb_eq in Hb.
    + intros (b & Hin & Hb & ->). exists b. split; [reflexivity|].
      apply filter_In. split; [exact Hin|].
      unfold by_author. rewrite Hb. apply String.eqb_refl.
Qed.

Lemma findById_known {A : Type} (id_of : A -> ObjectId) (id : ObjectId)
  (c : list A) :
  (exists d, In d c /\ id_of d = id) ->
  exists d, Model.findById id_of id c = Some d.
Proof.
  intros (d & Hin & Hd).
  destruct (Model.findById id_of id c) as [x|] eqn:E; [now exists x|].
  exfalso. induction c as [|x c IH]; [contradiction|].
  simpl in E. destruct (String.eqb_spec (id_of x) id) as [|Hne];
    [discriminate|].
  destruct Hin as [<-|Hin]; [contradiction | now apply IH].
Qed.

(** X19.  The book list has one entry for each book.  In a store where
    every book names a stored author, every entry carries the author
    document that its book names. *)
Theorem book_list_populates_authors (st : Store) :
  exists book_list_,
    book_list st
    = (render "book_list" (book_list_locals "Book List" book_list_), st)
    /\ List.length book_list_ = List.length (books st)
    /\ (books_have_authors st ->
        forall item, In item book_list_ ->
          exists b a,
            In b (books st)
            /\ BookTitleAuthor._id item = Book._id b
            /\ BookTitleAuthor.title item = Book.title b
            /\ BookTitleAuthor.author item = Some a
            /\ In a (authors st)
            /\ Author._id a = Book.author b).
Proof.
  exists (books_by_title st). split; [reflexivity|].
  unfold books_by_title, everything. rewrite find_everything.
  split.
  - rewrite length_map.
    rewrite (Permutation_length
               (sort_permutation BookTitleAuthor.title
                  (map title_author (books st)))).
    apply length_map.
  - intros Hrefs item Hin.
    apply in_map_iff in Hin as (listed & <- & Hin).
    apply (Permutation_in _ (sort_permutation BookTitleAuthor.title _)) in Hin.
    apply in_map_iff in Hin as (b & <- & Hb).
    destruct (findById_known Author._id (Book.author b) (authors st)
                (Hrefs b Hb)) as (a & Ha).
    exists b, a. simpl. rewrite Ha.
    destruct (findById_some Author._id _ _ _ Ha) as [Hina Hida].
    repeat split; assumption.
Qed.

(** X20.  The detail page of a stored book is titled with the title of the
    book and shows the book with its author looked up, the stored genres
    that it names, and exactly the copies whose book is the identifier of
    the URL. *)
Theorem book_detail_shows_the_book
  (choices : list nat) (st : Store) (id : ObjectId) (b : Book.t) :
  book_by_id id st = Some b ->
  exists shown copies,
    book_detail (promise_all choices) id st
    = (render "book_detail"
         (book_detail_locals (Book.title b) shown copies), st)
    /\ Book._id shown = id
    /\ Book.title shown = Book.title b
    /\ Book.author shown = author_by_id (Book.author b) st
    /\ (forall g, In g (Book.genre shown)
                  <-> In g (genres st) /\ In (Genre._id g) (Book.genre b)
                      /\ Model.findById Genre._id (Genre._id g) (genres st)
                         = Some g)
    /\ (forall i, In i copies
                  <-> In i (bookinstances st) /\ BookInstance.book i = id).
Proof.
  intros Hb.
  exists (populate_genre st (populate_author st b)), (instances_by_book id st).
  split; [|split; [|split; [|split; [|split]]]].
  - unfold book_detail. listed. unfold book_populated.
    unfold book_by_id in Hb. now rewrite Hb.
  - simpl. now apply (findById_some Book._id id (books st) b).
  - reflexivity.
  - reflexivity.
  - intros g. simpl. rewrite in_flat_map. split.
    + intros (ref & Href & Hg).
      destruct (Model.findById Genre._id ref (genres st)) as [d|] eqn:E;
        [|contradiction].
      destruct Hg as [<-|[]].
      destruct (findById_some Genre._id _ _ _ E) as [Hin Hid].
      rewrite Hid. now repeat split.
    + intros (Hin & Href & Hfind). exists (Genre._id g).
      split; [exact Href|]. rewrite Hfind. now left.
  - intros i. unfold instances_by_book, Model.find. rewrite filter_In.
    unfold by_book. now rewrite String.eqb_eq.
Qed.

Lemma index_shows_consistent_counts_witness :
  fst (index (promise_all [4; 0; 2]) library)
  = render "index" (index_locals "Local Library Home" 2 1 1 2 1).
Proof.
  destruct (index_shows_consistent_counts [4; 0; 2] library)
    as (Hindex & _ & _).
  rewrite Hindex. reflexivity.
Defined.

Lemma author_detail_shows_the_books_of_the_author_witness :
  exists author_books,
    author_detail (promise_all [1]) "a1" library
    = (render "author_detail"
         (author_detail_locals "Author Detail" asimov author_books), library)
    /\ In (title_summary foundation) author_books
    /\ ~ In (title_summary mars) author_books.
Proof.
  destruct (author_detail_shows_the_books_of_the_author
              [1] library "a1" asimov eq_refl)
    as (author_books & Hpage & _ & Hbooks).
  exists author_books. split; [exact Hpage | split].
  - apply Hbooks. exists foundation. simpl. auto.
  - intros Hin. apply Hbooks in Hin as (b & Hb & Hauthor & Heq).
    simpl in Hb. destruct Hb as [<-|[<-|[]]]; discriminate.
Defined.

Lemma book_list_populates_authors_witness :
  exists book_list_,
    fst (book_list library)
    = render "book_list" (book_list_locals "Book List" book_list_)
    /\ forall item, In item book_list_ ->
                    BookTitleAuthor.author item <> None.
Proof.
  destruct (book_list_populates_authors library)
    as (l & Hpage & _ & Hauthors).
  exists l. split; [now rewrite Hpage|].
  intros item Hin.
  destruct (Hauthors (proj1 library_references) item Hin)
    as (b & a & _ & _ & _ & Ha & _).
  rewrite Ha. discriminate.
Defined.

Lemma book_detail_shows_the_book_witness :
  exists shown copies,
    book_detail (promise_all [0]) "b1" library
    = (render "book_detail"
         (book_detail_locals "Foundation" shown copies), library)
    /\ In science_fiction (Book.genre shown)
    /\ In foundation_copy copies.
Proof.
  destruct (book_detail_shows_the_book [0] library "b1" foundation eq_refl)
    as (shown & copies & Hpage & _ & _ & _ & Hgenres & Hcopies).
  exists shown, copies. split; [exact Hpage | split].
  - apply Hgenres. simpl. auto.
  - apply Hcopies. simpl. auto.
Defined.
